(** * tf2_geometry_msgs: frame-transform adapters for geometry messages

    Shallow embedding of [tf2_geometry_msgs/tf2_geometry_msgs.h].

    The header converts a [TransformStamped] message into a [KDL::Frame]
    and applies it to vectors, points, poses and wrenches.  The C++
    [double] scalars are read as real numbers: every statement below is
    an exact statement of real arithmetic, and says nothing about
    rounding, infinities or NaN.

    Out-parameters ([t_out]) are passed in and returned: each
    [doTransform_*] takes the previous contents of [t_out] and returns
    the contents after the call, written field by field as the source
    assigns them. *)

From Stdlib Require Import Reals Lra Psatz Lia ZArith List String.
Import ListNotations.

Open Scope R_scope.

(** ** The part of KDL ([kdl/frames.hpp]) the header calls

    KDL is an external library.  The definitions below follow its
    [frames.inl] / [frames.cpp]: a [Rotation] is nine doubles in row-major
    order, a [Frame] is a rotation [M] and an origin [p]. *)
Module KDL.

Record Vector : Type := mkVector { v0 : R; v1 : R; v2 : R }.

(** [data[0..8]], with [operator()(i,j) = data[3*i+j]]. *)
Record Rotation : Type := mkRotation {
  d0 : R; d1 : R; d2 : R;
  d3 : R; d4 : R; d5 : R;
  d6 : R; d7 : R; d8 : R
}.

(** [Frame(const Rotation& R, const Vector& V)]. *)
Record Frame : Type := mkFrame { M : Rotation; p : Vector }.

(** [Rotation::Quaternion(x, y, z, w)]. *)
Definition Quaternion (x y z w : R) : Rotation :=
  let x2 := x * x in
  let y2 := y * y in
  let z2 := z * z in
  let w2 := w * w in
  mkRotation
    (w2 + x2 - y2 - z2) (2 * x * y - 2 * w * z) (2 * x * z + 2 * w * y)
    (2 * x * y + 2 * w * z) (w2 - x2 + y2 - z2) (2 * y * z - 2 * w * x)
    (2 * x * z - 2 * w * y) (2 * y * z + 2 * w * x) (w2 - x2 - y2 + z2).

(** [Vector operator+(const Vector&, const Vector&)]. *)
Definition Vector_add (a b : Vector) : Vector :=
  mkVector (v0 a + v0 b) (v1 a + v1 b) (v2 a + v2 b).

(** [Vector Rotation::operator*(const Vector& v) const]. *)
Definition Rotation_mul_Vector (r : Rotation) (v : Vector) : Vector :=
  mkVector
    (d0 r * v0 v + d1 r * v1 v + d2 r * v2 v)
    (d3 r * v0 v + d4 r * v1 v + d5 r * v2 v)
    (d6 r * v0 v + d7 r * v1 v + d8 r * v2 v).

(** [Rotation operator*(const Rotation& lhs, const Rotation& rhs)]. *)
Definition Rotation_mul (a b : Rotation) : Rotation :=
  mkRotation
    (d0 a * d0 b + d1 a * d3 b + d2 a * d6 b)
    (d0 a * d1 b + d1 a * d4 b + d2 a * d7 b)
    (d0 a * d2 b + d1 a * d5 b + d2 a * d8 b)
    (d3 a * d0 b + d4 a * d3 b + d5 a * d6 b)
    (d3 a * d1 b + d4 a * d4 b + d5 a * d7 b)
    (d3 a * d2 b + d4 a * d5 b + d5 a * d8 b)
    (d6 a * d0 b + d7 a * d3 b + d8 a * d6 b)
    (d6 a * d1 b + d7 a * d4 b + d8 a * d7 b)
    (d6 a * d2 b + d7 a * d5 b + d8 a * d8 b).

(** [Vector Frame::operator*(const Vector& arg) const { return M*arg+p; }]. *)
Definition Frame_mul_Vector (f : Frame) (arg : Vector) : Vector :=
  Vector_add (Rotation_mul_Vector (M f) arg) (p f).

(** [Frame operator*(const Frame& lhs, const Frame& rhs)]:
    [Frame(lhs.M*rhs.M, lhs.M*rhs.p+lhs.p)]. *)
Definition Frame_mul (lhs rhs : Frame) : Frame :=
  mkFrame (Rotation_mul (M lhs) (M rhs))
          (Vector_add (Rotation_mul_Vector (M lhs) (p rhs)) (p lhs)).

(** The comparison [a > b] on doubles, as a boolean. *)
Definition Rgtb (a b : R) : bool := if Rgt_dec a b then true else false.

(** [void Rotation::GetQuaternion(double& x, double& y, double& z, double& w)]:
    the four results are returned as [(x, y, z, w)]. *)
Definition GetQuaternion (r : Rotation) : R * R * R * R :=
  let trace := d0 r + d4 r + d8 r in
  let epsilon := 1 / 1000000000000 in
  if Rgtb trace epsilon then
    let s := 0.5 / sqrt (trace + 1.0) in
    let w := 0.25 / s in
    let x := (d7 r - d5 r) * s in
    let y := (d2 r - d6 r) * s in
    let z := (d3 r - d1 r) * s in
    (x, y, z, w)
  else if (Rgtb (d0 r) (d4 r) && Rgtb (d0 r) (d8 r))%bool then
    let s := 2.0 * sqrt (1.0 + d0 r - d4 r - d8 r) in
    let w := (d7 r - d5 r) / s in
    let x := 0.25 * s in
    let y := (d1 r + d3 r) / s in
    let z := (d2 r + d6 r) / s in
    (x, y, z, w)
  else if Rgtb (d4 r) (d8 r) then
    let s := 2.0 * sqrt (1.0 + d4 r - d0 r - d8 r) in
    let w := (d2 r - d6 r) / s in
    let x := (d1 r + d3 r) / s in
    let y := 0.25 * s in
    let z := (d5 r + d7 r) / s in
    (x, y, z, w)
  else
    let s := 2.0 * sqrt (1.0 + d8 r - d0 r - d4 r) in
    let w := (d3 r - d1 r) / s in
    let x := (d2 r + d6 r) / s in
    let y := (d5 r + d7 r) / s in
    let z := 0.25 * s in
    (x, y, z, w).

End KDL.

(** ** Message types ([builtin_interfaces], [std_msgs], [geometry_msgs])

    Field names carry the message name as a prefix, since the records
    share one name space. *)

(** [builtin_interfaces/msg/Time]: [int32 sec], [uint32 nanosec]. *)
Record Time : Type := mkTime { sec : Z; nanosec : Z }.

(** [std_msgs/msg/Header]. *)
Record Header : Type := mkHeader { stamp : Time; frame_id : string }.

Record Vector3 : Type := mkVector3 { Vector3_x : R; Vector3_y : R; Vector3_z : R }.

Record Point : Type := mkPoint { Point_x : R; Point_y : R; Point_z : R }.

Record Quaternion : Type := mkQuaternion {
  Quaternion_x : R; Quaternion_y : R; Quaternion_z : R; Quaternion_w : R
}.

Record Pose : Type := mkPose { position : Point; orientation : Quaternion }.

Record Wrench : Type := mkWrench { force : Vector3; torque : Vector3 }.

Record Transform : Type := mkTransform { translation : Vector3; rotation : Quaternion }.

Record TransformStamped : Type := mkTransformStamped {
  TransformStamped_header : Header;
  child_frame_id : string;
  transform : Transform
}.

Record Vector3Stamped : Type := mkVector3Stamped {
  Vector3Stamped_header : Header;
  vector : Vector3
}.

Record PointStamped : Type := mkPointStamped {
  PointStamped_header : Header;
  point : Point
}.

Record PoseStamped : Type := mkPoseStamped {
  PoseStamped_header : Header;
  pose : Pose
}.

(** [float64[36] covariance]: the array is a list here, and the theorems
    about it assume its length. *)
Record PoseWithCovariance : Type := mkPoseWithCovariance {
  PoseWithCovariance_pose : Pose;
  covariance : list R
}.

Record PoseWithCovarianceStamped : Type := mkPoseWithCovarianceStamped {
  PoseWithCovarianceStamped_header : Header;
  PoseWithCovarianceStamped_pose : PoseWithCovariance
}.

Record WrenchStamped : Type := mkWrenchStamped {
  WrenchStamped_header : Header;
  wrench : Wrench
}.

(** *** Field assignment

    [set_f m a] is [m] after the statement [m.f = a]. *)

Definition set_stamp (h : Header) (a : Time) : Header := mkHeader a (frame_id h).
Definition set_frame_id (h : Header) (a : string) : Header := mkHeader (stamp h) a.

Definition set_Vector3_x (v : Vector3) (a : R) : Vector3 := mkVector3 a (Vector3_y v) (Vector3_z v).
Definition set_Vector3_y (v : Vector3) (a : R) : Vector3 := mkVector3 (Vector3_x v) a (Vector3_z v).
Definition set_Vector3_z (v : Vector3) (a : R) : Vector3 := mkVector3 (Vector3_x v) (Vector3_y v) a.

Definition set_Point_x (v : Point) (a : R) : Point := mkPoint a (Point_y v) (Point_z v).
Definition set_Point_y (v : Point) (a : R) : Point := mkPoint (Point_x v) a (Point_z v).
Definition set_Point_z (v : Point) (a : R) : Point := mkPoint (Point_x v) (Point_y v) a.

Definition set_position (m : Pose) (a : Point) : Pose := mkPose a (orientation m).
Definition set_orientation (m : Pose) (a : Quaternion) : Pose := mkPose (position m) a.

Definition set_force (m : Wrench) (a : Vector3) : Wrench := mkWrench a (torque m).
Definition set_torque (m : Wrench) (a : Vector3) : Wrench := mkWrench (force m) a.

Definition set_Vector3Stamped_header (m : Vector3Stamped) (a : Header) : Vector3Stamped :=
  mkVector3Stamped a (vector m).
Definition set_vector (m : Vector3Stamped) (a : Vector3) : Vector3Stamped :=
  mkVector3Stamped (Vector3Stamped_header m) a.

Definition set_PointStamped_header (m : PointStamped) (a : Header) : PointStamped :=
  mkPointStamped a (point m).
Definition set_point (m : PointStamped) (a : Point) : PointStamped :=
  mkPointStamped (PointStamped_header m) a.

Definition set_PoseStamped_header (m : PoseStamped) (a : Header) : PoseStamped :=
  mkPoseStamped a (pose m).
Definition set_pose (m : PoseStamped) (a : Pose) : PoseStamped :=
  mkPoseStamped (PoseStamped_header m) a.

Definition set_WrenchStamped_header (m : WrenchStamped) (a : Header) : WrenchStamped :=
  mkWrenchStamped a (wrench m).
Definition set_wrench (m : WrenchStamped) (a : Wrench) : WrenchStamped :=
  mkWrenchStamped (WrenchStamped_header m) a.

(** ** The adapter functions *)

(** [KDL::Frame gmTransformToKDL(const TransformStamped& t)]. *)
Definition gmTransformToKDL (t : TransformStamped) : KDL.Frame :=
  KDL.mkFrame
    (KDL.Quaternion (Quaternion_x (rotation (transform t)))
                    (Quaternion_y (rotation (transform t)))
                    (Quaternion_z (rotation (transform t)))
                    (Quaternion_w (rotation (transform t))))
    (KDL.mkVector (Vector3_x (translation (transform t)))
                  (Vector3_y (translation (transform t)))
                  (Vector3_z (translation (transform t)))).

(** [doTransform(const Vector3& t_in, Vector3& t_out, const TransformStamped&)]. *)
Definition doTransform_Vector3
    (t_in t_out : Vector3) (transform : TransformStamped) : Vector3 :=
  let v_out :=
    KDL.Rotation_mul_Vector (KDL.M (gmTransformToKDL transform))
      (KDL.mkVector (Vector3_x t_in) (Vector3_y t_in) (Vector3_z t_in)) in
  let t_out := set_Vector3_x t_out (KDL.v0 v_out) in
  let t_out := set_Vector3_y t_out (KDL.v1 v_out) in
  let t_out := set_Vector3_z t_out (KDL.v2 v_out) in
  t_out.

(** [doTransform(const Vector3Stamped& t_in, Vector3Stamped& t_out, ...)]. *)
Definition doTransform_Vector3Stamped
    (t_in t_out : Vector3Stamped) (transform : TransformStamped) : Vector3Stamped :=
  let t_out := set_vector t_out (doTransform_Vector3 (vector t_in) (vector t_out) transform) in
  let t_out := set_Vector3Stamped_header t_out
                 (set_stamp (Vector3Stamped_header t_out)
                            (stamp (TransformStamped_header transform))) in
  let t_out := set_Vector3Stamped_header t_out
                 (set_frame_id (Vector3Stamped_header t_out)
                               (frame_id (TransformStamped_header transform))) in
  t_out.

(** [doTransform(const PointStamped& t_in, PointStamped& t_out, ...)]. *)
Definition doTransform_PointStamped
    (t_in t_out : PointStamped) (transform : TransformStamped) : PointStamped :=
  let v_out :=
    KDL.Frame_mul_Vector (gmTransformToKDL transform)
      (KDL.mkVector (Point_x (point t_in)) (Point_y (point t_in)) (Point_z (point t_in))) in
  let t_out := set_point t_out (set_Point_x (point t_out) (KDL.v0 v_out)) in
  let t_out := set_point t_out (set_Point_y (point t_out) (KDL.v1 v_out)) in
  let t_out := set_point t_out (set_Point_z (point t_out) (KDL.v2 v_out)) in
  let t_out := set_PointStamped_header t_out
                 (set_stamp (PointStamped_header t_out)
                            (stamp (TransformStamped_header transform))) in
  let t_out := set_PointStamped_header t_out
                 (set_frame_id (PointStamped_header t_out)
                               (frame_id (TransformStamped_header transform))) in
  t_out.

(** [doTransform(const PoseStamped& t_in, PoseStamped& t_out, ...)]. *)
Definition doTransform_PoseStamped
    (t_in t_out : PoseStamped) (transform : TransformStamped) : PoseStamped :=
  let v := KDL.mkVector (Point_x (position (pose t_in)))
                        (Point_y (position (pose t_in)))
                        (Point_z (position (pose t_in))) in
  let r := KDL.Quaternion (Quaternion_x (orientation (pose t_in)))
                          (Quaternion_y (orientation (pose t_in)))
                          (Quaternion_z (orientation (pose t_in)))
                          (Quaternion_w (orientation (pose t_in))) in
  let v_out := KDL.Frame_mul (gmTransformToKDL transform) (KDL.mkFrame r v) in
  let set_pos f a (m : PoseStamped) := set_pose m (set_position (pose m) (f (position (pose m)) a)) in
  let t_out := set_pos set_Point_x (KDL.v0 (KDL.p v_out)) t_out in
  let t_out := set_pos set_Point_y (KDL.v1 (KDL.p v_out)) t_out in
  let t_out := set_pos set_Point_z (KDL.v2 (KDL.p v_out)) t_out in
  let '(qx, qy, qz, qw) := KDL.GetQuaternion (KDL.M v_out) in
  let t_out := set_pose t_out (set_orientation (pose t_out) (mkQuaternion qx qy qz qw)) in
  let t_out := set_PoseStamped_header t_out
                 (set_stamp (PoseStamped_header t_out)
                            (stamp (TransformStamped_header transform))) in
  let t_out := set_PoseStamped_header t_out
                 (set_frame_id (PoseStamped_header t_out)
                               (frame_id (TransformStamped_header transform))) in
  t_out.

(** [doTransform(const Wrench& t_in, Wrench& t_out, const TransformStamped&)]. *)
Definition doTransform_Wrench
    (t_in t_out : Wrench) (transform : TransformStamped) : Wrench :=
  let t_out := set_force t_out (doTransform_Vector3 (force t_in) (force t_out) transform) in
  let t_out := set_torque t_out (doTransform_Vector3 (torque t_in) (torque t_out) transform) in
  t_out.

(** [doTransform(const WrenchStamped& t_in, WrenchStamped& t_out, ...)]. *)
Definition doTransform_WrenchStamped
    (t_in t_out : WrenchStamped) (transform : TransformStamped) : WrenchStamped :=
  let t_out := set_wrench t_out (doTransform_Wrench (wrench t_in) (wrench t_out) transform) in
  let t_out := set_WrenchStamped_header t_out
                 (set_stamp (WrenchStamped_header t_out)
                            (stamp (TransformStamped_header transform))) in
  let t_out := set_WrenchStamped_header t_out
                 (set_frame_id (WrenchStamped_header t_out)
                               (frame_id (TransformStamped_header transform))) in
  t_out.

(** *** Trivial conversions

    [toMsg] returns its argument; [fromMsg(msg, out)] assigns [out = msg]
    and is given the previous contents of [out]. *)

Definition toMsg_Vector3Stamped (input : Vector3Stamped) : Vector3Stamped := input.
Definition fromMsg_Vector3Stamped (msg out : Vector3Stamped) : Vector3Stamped := msg.

Definition toMsg_PointStamped (input : PointStamped) : PointStamped := input.
Definition fromMsg_PointStamped (msg out : PointStamped) : PointStamped := msg.

Definition toMsg_PoseStamped (input : PoseStamped) : PoseStamped := input.
Definition fromMsg_PoseStamped (msg out : PoseStamped) : PoseStamped := msg.

Definition toMsg_WrenchStamped (input : WrenchStamped) : WrenchStamped := input.
Definition fromMsg_WrenchStamped (msg out : WrenchStamped) : WrenchStamped := msg.

(** *** Header accessors *)

(** Modelled from the spec: [tf2_ros::fromMsg] on a time message is
    declared in [tf2_ros/buffer_interface.h], which is not part of the
    header; the stamp is "converted to the adapter's canonical time
    representation", read here as a count of nanoseconds. *)
Definition TimePoint : Type := Z.

Definition tf2_ros_fromMsg (t : Time) : TimePoint :=
  (sec t * 1000000000 + nanosec t)%Z.

Definition getTimestamp_Vector3Stamped (t : Vector3Stamped) : TimePoint :=
  tf2_ros_fromMsg (stamp (Vector3Stamped_header t)).
Definition getFrameId_Vector3Stamped (t : Vector3Stamped) : string :=
  frame_id (Vector3Stamped_header t).

Definition getTimestamp_PointStamped (t : PointStamped) : TimePoint :=
  tf2_ros_fromMsg (stamp (PointStamped_header t)).
Definition getFrameId_PointStamped (t : PointStamped) : string :=
  frame_id (PointStamped_header t).

Definition getTimestamp_PoseStamped (t : PoseStamped) : TimePoint :=
  tf2_ros_fromMsg (stamp (PoseStamped_header t)).
Definition getFrameId_PoseStamped (t : PoseStamped) : string :=
  frame_id (PoseStamped_header t).

Definition getTimestamp_PoseWithCovarianceStamped (t : PoseWithCovarianceStamped) : TimePoint :=
  tf2_ros_fromMsg (stamp (PoseWithCovarianceStamped_header t)).
Definition getFrameId_PoseWithCovarianceStamped (t : PoseWithCovarianceStamped) : string :=
  frame_id (PoseWithCovarianceStamped_header t).

Definition getTimestamp_WrenchStamped (t : WrenchStamped) : TimePoint :=
  tf2_ros_fromMsg (stamp (WrenchStamped_header t)).
Definition getFrameId_WrenchStamped (t : WrenchStamped) : string :=
  frame_id (WrenchStamped_header t).

(** *** Covariance *)

(** Modelled from the spec: [covarianceRowMajorToNested] is declared in
    [tf2/convert.h], which is not part of the header.  It "reshapes the
    flat 36-element row-major array into 6 rows of 6 columns, row [i] =
    elements [6i .. 6i+5]".  The result is a
    [std::array<std::array<double, 6>, 6>], so it has six rows of six
    entries whatever the input. *)
Definition covarianceRowMajorToNested (row_major : list R) : list (list R) :=
  map (fun i => map (fun j => nth (6 * i + j) row_major 0) (seq 0 6)) (seq 0 6).

Definition getCovarianceMatrix (t : PoseWithCovarianceStamped) : list (list R) :=
  covarianceRowMajorToNested (covariance (PoseWithCovarianceStamped_pose t)).

(** ** The overload set

    The generic entry points ([getTimestamp], [getFrameId], [doTransform],
    [toMsg], [fromMsg]) are templates declared elsewhere; the header
    supplies them for some message types.  The tables below list, per
    stamped message type, the overload the header defines, and [None]
    where it defines none. *)

Inductive StampedType : Type :=
  | Vector3StampedT
  | PointStampedT
  | PoseStampedT
  | PoseWithCovarianceStampedT
  | WrenchStampedT.

Definition stamped_types : list StampedType :=
  [Vector3StampedT; PointStampedT; PoseStampedT; PoseWithCovarianceStampedT; WrenchStampedT].

Definition msg (k : StampedType) : Type :=
  match k with
  | Vector3StampedT => Vector3Stamped
  | PointStampedT => PointStamped
  | PoseStampedT => PoseStamped
  | PoseWithCovarianceStampedT => PoseWithCovarianceStamped
  | WrenchStampedT => WrenchStamped
  end.

Definition getTimestamp (k : StampedType) : option (msg k -> TimePoint) :=
  match k with
  | Vector3StampedT => Some getTimestamp_Vector3Stamped
  | PointStampedT => Some getTimestamp_PointStamped
  | PoseStampedT => Some getTimestamp_PoseStamped
  | PoseWithCovarianceStampedT => Some getTimestamp_PoseWithCovarianceStamped
  | WrenchStampedT => Some getTimestamp_WrenchStamped
  end.

Definition getFrameId (k : StampedType) : option (msg k -> string) :=
  match k with
  | Vector3StampedT => Some getFrameId_Vector3Stamped
  | PointStampedT => Some getFrameId_PointStamped
  | PoseStampedT => Some getFrameId_PoseStamped
  | PoseWithCovarianceStampedT => Some getFrameId_PoseWithCovarianceStamped
  | WrenchStampedT => Some getFrameId_WrenchStamped
  end.

Definition doTransform (k : StampedType)
    : option (msg k -> msg k -> TransformStamped -> msg k) :=
  match k with
  | Vector3StampedT => Some doTransform_Vector3Stamped
  | PointStampedT => Some doTransform_PointStamped
  | PoseStampedT => Some doTransform_PoseStamped
  | PoseWithCovarianceStampedT => None
  | WrenchStampedT => Some doTransform_WrenchStamped
  end.

Definition toMsg (k : StampedType) : option (msg k -> msg k) :=
  match k with
  | Vector3StampedT => Some toMsg_Vector3Stamped
  | PointStampedT => Some toMsg_PointStamped
  | PoseStampedT => Some toMsg_PoseStamped
  | PoseWithCovarianceStampedT => None
  | WrenchStampedT => Some toMsg_WrenchStamped
  end.

Definition fromMsg (k : StampedType) : option (msg k -> msg k -> msg k) :=
  match k with
  | Vector3StampedT => Some fromMsg_Vector3Stamped
  | PointStampedT => Some fromMsg_PointStamped
  | PoseStampedT => Some fromMsg_PoseStamped
  | PoseWithCovarianceStampedT => None
  | WrenchStampedT => Some fromMsg_WrenchStamped
  end.

Definition defined {A : Type} (o : option A) : bool :=
  match o with Some _ => true | None => false end.

(** The three services claimed for a stamped type: a timestamp accessor,
    a frame accessor and a transform application. *)
Definition provides_all (k : StampedType) : bool :=
  (defined (getTimestamp k) && defined (getFrameId k) && defined (doTransform k))%bool.

(** [toMsg] and [fromMsg] both exist for [k], and converting to a message
    and back gives the value converted. *)
Definition identity_conversion (k : StampedType) : Prop :=
  exists (to : msg k -> msg k) (from : msg k -> msg k -> msg k),
    toMsg k = Some to /\ fromMsg k = Some from /\
    (forall x out : msg k, to x = x /\ from x out = x /\ from (to x) out = x).

(** ** Reference notions: quaternion algebra

    These follow the textbook definitions, not the code, and are what the
    code is compared with. *)
Module Quat.

(** Hamilton product [a * b]. *)
Definition mul (a b : Quaternion) : Quaternion :=
  let '(mkQuaternion ax ay az aw) := a in
  let '(mkQuaternion bx by_ bz bw) := b in
  mkQuaternion
    (aw * bx + ax * bw + ay * bz - az * by_)
    (aw * by_ - ax * bz + ay * bw + az * bx)
    (aw * bz + ax * by_ - ay * bx + az * bw)
    (aw * bw - ax * bx - ay * by_ - az * bz).

Definition conj (a : Quaternion) : Quaternion :=
  mkQuaternion (- Quaternion_x a) (- Quaternion_y a) (- Quaternion_z a) (Quaternion_w a).

Definition neg (a : Quaternion) : Quaternion :=
  mkQuaternion (- Quaternion_x a) (- Quaternion_y a) (- Quaternion_z a) (- Quaternion_w a).

Definition norm2 (a : Quaternion) : R :=
  Quaternion_x a * Quaternion_x a + Quaternion_y a * Quaternion_y a
  + Quaternion_z a * Quaternion_z a + Quaternion_w a * Quaternion_w a.

Definition unit (a : Quaternion) : Prop := norm2 a = 1.

Definition identity : Quaternion := mkQuaternion 0 0 0 1.

(** The rotation of a vector by [q]: the vector part of [q * (v, 0) * conj q]. *)
Definition rotate (q : Quaternion) (v : Vector3) : Vector3 :=
  let r := mul (mul q (mkQuaternion (Vector3_x v) (Vector3_y v) (Vector3_z v) 0)) (conj q) in
  mkVector3 (Quaternion_x r) (Quaternion_y r) (Quaternion_z r).

End Quat.

Definition Vector3_add (a b : Vector3) : Vector3 :=
  mkVector3 (Vector3_x a + Vector3_x b) (Vector3_y a + Vector3_y b) (Vector3_z a + Vector3_z b).

Definition Vector3_of_Point (a : Point) : Vector3 :=
  mkVector3 (Point_x a) (Point_y a) (Point_z a).

(** The KDL rotation matrix of a quaternion message, as
    [gmTransformToKDL] and [doTransform] on poses build it. *)
Definition Rotation_of (q : Quaternion) : KDL.Rotation :=
  KDL.Quaternion (Quaternion_x q) (Quaternion_y q) (Quaternion_z q) (Quaternion_w q).

Definition Quaternion_of (c : R * R * R * R) : Quaternion :=
  let '(x, y, z, w) := c in mkQuaternion x y z w.

(** The rigid motion [p |-> R(t) p + t(t)] of a transform message. *)
Definition apply_rigid (t : TransformStamped) (v : Vector3) : Vector3 :=
  Vector3_add (Quat.rotate (rotation (transform t)) v) (translation (transform t)).

(** The composed transform [t2 o t1] (first [t1], then [t2]), as a message
    in the frame and at the time of [t2]. *)
Definition compose (t2 t1 : TransformStamped) : TransformStamped :=
  mkTransformStamped
    (TransformStamped_header t2)
    (child_frame_id t1)
    (mkTransform
       (apply_rigid t2 (translation (transform t1)))
       (Quat.mul (rotation (transform t2)) (rotation (transform t1)))).

(** ** Calls through references

    The C++ signatures take [const T& t_in] and [T& t_out]: two names
    that may denote two objects or one and the same object (a call in
    place, [doTransform(p, p, t)]).  A reference into a store [S] is a
    way to read an object and a way to write it; a field of a reference
    is a reference.  Each [doTransform] is written once more below as a
    store transformer, statement by statement, reading [t_in] from the
    store as it is when the source reads it.  The transform itself is
    taken by value: no output is assumed to be a part of it. *)
Module Ref.

Record ref (S A : Type) : Type := mkRef {
  load : S -> A;
  store : S -> A -> S
}.

Arguments mkRef {S A} _ _.
Arguments load {S A} _ _.
Arguments store {S A} _ _ _.

(** [r.f], for a field [f] read by [get] and assigned by [set]. *)
Definition field {S A B : Type} (r : ref S A) (get : A -> B) (set : A -> B -> A)
    : ref S B :=
  mkRef (fun s => get (load r s))
        (fun s b => store r s (set (load r s) b)).

(** A single object, which is the whole store. *)
Definition self {A : Type} : ref A A :=
  mkRef (fun a => a) (fun _ a => a).

(** Two distinct objects. *)
Definition first {A B : Type} : ref (A * B) A :=
  mkRef (fun s => fst s) (fun s a => (a, snd s)).

Definition second {A B : Type} : ref (A * B) B :=
  mkRef (fun s => snd s) (fun s b => (fst s, b)).

End Ref.

Definition set_Quaternion_x (q : Quaternion) (a : R) : Quaternion :=
  mkQuaternion a (Quaternion_y q) (Quaternion_z q) (Quaternion_w q).
Definition set_Quaternion_y (q : Quaternion) (a : R) : Quaternion :=
  mkQuaternion (Quaternion_x q) a (Quaternion_z q) (Quaternion_w q).
Definition set_Quaternion_z (q : Quaternion) (a : R) : Quaternion :=
  mkQuaternion (Quaternion_x q) (Quaternion_y q) a (Quaternion_w q).
Definition set_Quaternion_w (q : Quaternion) (a : R) : Quaternion :=
  mkQuaternion (Quaternion_x q) (Quaternion_y q) (Quaternion_z q) a.

Section ByReference.

Context {S : Type}.

(** [doTransform(const Vector3& t_in, Vector3& t_out, const TransformStamped&)]. *)
Definition doTransform_Vector3_ref
    (t_in t_out : Ref.ref S Vector3) (transform : TransformStamped) (s : S) : S :=
  let v_out :=
    KDL.Rotation_mul_Vector (KDL.M (gmTransformToKDL transform))
      (KDL.mkVector (Vector3_x (Ref.load t_in s)) (Vector3_y (Ref.load t_in s))
                    (Vector3_z (Ref.load t_in s))) in
  let s := Ref.store (Ref.field t_out Vector3_x set_Vector3_x) s (KDL.v0 v_out) in
  let s := Ref.store (Ref.field t_out Vector3_y set_Vector3_y) s (KDL.v1 v_out) in
  let s := Ref.store (Ref.field t_out Vector3_z set_Vector3_z) s (KDL.v2 v_out) in
  s.

(** [doTransform(const Vector3Stamped& t_in, Vector3Stamped& t_out, ...)]. *)
Definition doTransform_Vector3Stamped_ref
    (t_in t_out : Ref.ref S Vector3Stamped) (transform : TransformStamped) (s : S) : S :=
  let header := Ref.field t_out Vector3Stamped_header set_Vector3Stamped_header in
  let s := doTransform_Vector3_ref (Ref.field t_in vector set_vector)
             (Ref.field t_out vector set_vector) transform s in
  let s := Ref.store (Ref.field header stamp set_stamp) s
             (stamp (TransformStamped_header transform)) in
  let s := Ref.store (Ref.field header frame_id set_frame_id) s
             (frame_id (TransformStamped_header transform)) in
  s.

(** [doTransform(const PointStamped& t_in, PointStamped& t_out, ...)]. *)
Definition doTransform_PointStamped_ref
    (t_in t_out : Ref.ref S PointStamped) (transform : TransformStamped) (s : S) : S :=
  let header := Ref.field t_out PointStamped_header set_PointStamped_header in
  let out_point := Ref.field t_out point set_point in
  let v_out :=
    KDL.Frame_mul_Vector (gmTransformToKDL transform)
      (KDL.mkVector (Point_x (point (Ref.load t_in s))) (Point_y (point (Ref.load t_in s)))
                    (Point_z (point (Ref.load t_in s)))) in
  let s := Ref.store (Ref.field out_point Point_x set_Point_x) s (KDL.v0 v_out) in
  let s := Ref.store (Ref.field out_point Point_y set_Point_y) s (KDL.v1 v_out) in
  let s := Ref.store (Ref.field out_point Point_z set_Point_z) s (KDL.v2 v_out) in
  let s := Ref.store (Ref.field header stamp set_stamp) s
             (stamp (TransformStamped_header transform)) in
  let s := Ref.store (Ref.field header frame_id set_frame_id) s
             (frame_id (TransformStamped_header transform)) in
  s.

(** [doTransform(const PoseStamped& t_in, PoseStamped& t_out, ...)].
    [GetQuaternion] is handed the four fields of [t_out.pose.orientation]
    and assigns them from the local frame [v_out]. *)
Definition doTransform_PoseStamped_ref
    (t_in t_out : Ref.ref S PoseStamped) (transform : TransformStamped) (s : S) : S :=
  let header := Ref.field t_out PoseStamped_header set_PoseStamped_header in
  let out_pose := Ref.field t_out pose set_pose in
  let out_position := Ref.field out_pose position set_position in
  let out_orientation := Ref.field out_pose orientation set_orientation in
  let v := KDL.mkVector (Point_x (position (pose (Ref.load t_in s))))
                        (Point_y (position (pose (Ref.load t_in s))))
                        (Point_z (position (pose (Ref.load t_in s)))) in
  let r := KDL.Quaternion (Quaternion_x (orientation (pose (Ref.load t_in s))))
                          (Quaternion_y (orientation (pose (Ref.load t_in s))))
                          (Quaternion_z (orientation (pose (Ref.load t_in s))))
                          (Quaternion_w (orientation (pose (Ref.load t_in s)))) in
  let v_out := KDL.Frame_mul (gmTransformToKDL transform) (KDL.mkFrame r v) in
  let s := Ref.store (Ref.field out_position Point_x set_Point_x) s (KDL.v0 (KDL.p v_out)) in
  let s := Ref.store (Ref.field out_position Point_y set_Point_y) s (KDL.v1 (KDL.p v_out)) in
  let s := Ref.store (Ref.field out_position Point_z set_Point_z) s (KDL.v2 (KDL.p v_out)) in
  let '(qx, qy, qz, qw) := KDL.GetQuaternion (KDL.M v_out) in
  let s := Ref.store (Ref.field out_orientation Quaternion_w set_Quaternion_w) s qw in
  let s := Ref.store (Ref.field out_orientation Quaternion_x set_Quaternion_x) s qx in
  let s := Ref.store (Ref.field out_orientation Quaternion_y set_Quaternion_y) s qy in
  let s := Ref.store (Ref.field out_orientation Quaternion_z set_Quaternion_z) s qz in
  let s := Ref.store (Ref.field header stamp set_stamp) s
             (stamp (TransformStamped_header transform)) in
  let s := Ref.store (Ref.field header frame_id set_frame_id) s
             (frame_id (TransformStamped_header transform)) in
  s.

(** [doTransform(const Wrench& t_in, Wrench& t_out, const TransformStamped&)]:
    the torque of [t_in] is read after the force of [t_out] is written. *)
Definition doTransform_Wrench_ref
    (t_in t_out : Ref.ref S Wrench) (transform : TransformStamped) (s : S) : S :=
  let s := doTransform_Vector3_ref (Ref.field t_in force set_force)
             (Ref.field t_out force set_force) transform s in
  let s := doTransform_Vector3_ref (Ref.field t_in torque set_torque)
             (Ref.field t_out torque set_torque) transform s in
  s.

(** [doTransform(const WrenchStamped& t_in, WrenchStamped& t_out, ...)]. *)
Definition doTransform_WrenchStamped_ref
    (t_in t_out : Ref.ref S WrenchStamped) (transform : TransformStamped) (s : S) : S :=
  let header := Ref.field t_out WrenchStamped_header set_WrenchStamped_header in
  let s := doTransform_Wrench_ref (Ref.field t_in wrench set_wrench)
             (Ref.field t_out wrench set_wrench) transform s in
  let s := Ref.store (Ref.field header stamp set_stamp) s
             (stamp (TransformStamped_header transform)) in
  let s := Ref.store (Ref.field header frame_id set_frame_id) s
             (frame_id (TransformStamped_header transform)) in
  s.

End ByReference.

(** ** Reference notions: vectors, matrices and inverse transforms *)

Definition Vector3_scale (a : R) (v : Vector3) : Vector3 :=
  mkVector3 (a * Vector3_x v) (a * Vector3_y v) (a * Vector3_z v).

Definition Vector3_sub (a b : Vector3) : Vector3 :=
  mkVector3 (Vector3_x a - Vector3_x b) (Vector3_y a - Vector3_y b) (Vector3_z a - Vector3_z b).

Definition dot (a b : Vector3) : R :=
  Vector3_x a * Vector3_x b + Vector3_y a * Vector3_y b + Vector3_z a * Vector3_z b.

Definition Rotation_identity : KDL.Rotation := KDL.mkRotation 1 0 0 0 1 0 0 0 1.

Definition Rotation_scale (a : R) (r : KDL.Rotation) : KDL.Rotation :=
  KDL.mkRotation (a * KDL.d0 r) (a * KDL.d1 r) (a * KDL.d2 r)
                 (a * KDL.d3 r) (a * KDL.d4 r) (a * KDL.d5 r)
                 (a * KDL.d6 r) (a * KDL.d7 r) (a * KDL.d8 r).

Definition Rotation_transpose (r : KDL.Rotation) : KDL.Rotation :=
  KDL.mkRotation (KDL.d0 r) (KDL.d3 r) (KDL.d6 r)
                 (KDL.d1 r) (KDL.d4 r) (KDL.d7 r)
                 (KDL.d2 r) (KDL.d5 r) (KDL.d8 r).

Definition Rotation_det (r : KDL.Rotation) : R :=
  KDL.d0 r * (KDL.d4 r * KDL.d8 r - KDL.d5 r * KDL.d7 r)
  - KDL.d1 r * (KDL.d3 r * KDL.d8 r - KDL.d5 r * KDL.d6 r)
  + KDL.d2 r * (KDL.d3 r * KDL.d7 r - KDL.d4 r * KDL.d6 r).

(** The transform back from the frame of [t] to its child frame: the
    conjugate rotation, and the translation that takes the origin back. *)
Definition inverse (t : TransformStamped) : TransformStamped :=
  mkTransformStamped
    (mkHeader (stamp (TransformStamped_header t)) (child_frame_id t))
    (frame_id (TransformStamped_header t))
    (mkTransform
       (Vector3_scale (-1)
          (Quat.rotate (Quat.conj (rotation (transform t))) (translation (transform t))))
       (Quat.conj (rotation (transform t)))).

(** The transform that moves nothing. *)
Definition identity_transform (h : Header) (c : string) : TransformStamped :=
  mkTransformStamped h c (mkTransform (mkVector3 0 0 0) Quat.identity).

(** ** Sample messages

    [sample_T1] is a half turn about the z axis and a shift along it,
    [sample_T2] a half turn about the x axis and another shift; the
    messages they are applied to are in frame ["a"]. *)

Definition sample_T1 : TransformStamped :=
  mkTransformStamped (mkHeader (mkTime 10 500) "b") "a"
    (mkTransform (mkVector3 0 0 5) (mkQuaternion 0 0 1 0)).

Definition sample_T2 : TransformStamped :=
  mkTransformStamped (mkHeader (mkTime 11 0) "c") "b"
    (mkTransform (mkVector3 1 2 3) (mkQuaternion 1 0 0 0)).

(** Same rotation as [sample_T1]; everything else differs. *)
Definition sample_T1' : TransformStamped :=
  mkTransformStamped (mkHeader (mkTime 99 7) "z") "y"
    (mkTransform (mkVector3 (-4) 8 2) (mkQuaternion 0 0 1 0)).

(** A quarter turn about the z axis and a shift by [(0, 0, 5)], into
    frame ["b"]. *)
Definition quarter_turn_z : TransformStamped :=
  mkTransformStamped (mkHeader (mkTime 10 500) "b") "a"
    (mkTransform (mkVector3 0 0 5) (mkQuaternion 0 0 (sqrt 2 / 2) (sqrt 2 / 2))).

Definition sample_point : PointStamped :=
  mkPointStamped (mkHeader (mkTime 1 2) "a") (mkPoint 1 0 0).


Definition sample_point' : PointStamped :=
  mkPointStamped (mkHeader (mkTime 3 4) "a") (mkPoint 0 2 (-1)).

(** A pose whose unit orientation has a negative scalar part. *)
Definition sample_pose_neg : PoseStamped :=
  mkPoseStamped (mkHeader (mkTime 1 2) "a")
    (mkPose (mkPoint 1 0 0) (mkQuaternion 0 0 0 (-1))).

Definition sample_wrench : Wrench :=
  mkWrench (mkVector3 1 0 0) (mkVector3 0 0 1).

Definition sample_covariance : PoseWithCovarianceStamped :=
  mkPoseWithCovarianceStamped (mkHeader (mkTime 1 2) "a")
    (mkPoseWithCovariance
       (mkPose (mkPoint 0 0 0) Quat.identity)
       (map INR (seq 0 36))).

(** ** KDL against the quaternion algebra *)

Ltac unfold_kdl :=
  unfold KDL.Frame_mul_Vector, KDL.Frame_mul, KDL.Vector_add,
    KDL.Rotation_mul_Vector, KDL.Rotation_mul, KDL.Quaternion; simpl.

(** The matrix [Rotation::Quaternion] builds acts on a vector as the
    quaternion does by conjugation. *)
Lemma Quaternion_acts_as_rotate (q : Quaternion) (v : Vector3) :
  KDL.Rotation_mul_Vector
    (KDL.Quaternion (Quaternion_x q) (Quaternion_y q) (Quaternion_z q) (Quaternion_w q))
    (KDL.mkVector (Vector3_x v) (Vector3_y v) (Vector3_z v))
  = let r := Quat.rotate q v in
    KDL.mkVector (Vector3_x r) (Vector3_y r) (Vector3_z r).
Proof.
  destruct q as [qx qy qz qw], v as [a b c]; unfold_kdl.
  f_equal; ring.
Qed.

(** The product of two such matrices is the matrix of the Hamilton product. *)
Lemma Quaternion_mul_hom (a b : Quaternion) :
  KDL.Rotation_mul (Rotation_of a) (Rotation_of b) = Rotation_of (Quat.mul a b).
Proof.
  destruct a as [ax ay az aw], b as [bx by_ bz bw]; unfold Rotation_of; unfold_kdl.
  f_equal; ring.
Qed.

Lemma norm2_mul (a b : Quaternion) :
  Quat.norm2 (Quat.mul a b) = Quat.norm2 a * Quat.norm2 b.
Proof.
  destruct a as [ax ay az aw], b as [bx by_ bz bw]; unfold Quat.norm2; simpl; ring.
Qed.

Lemma unit_mul (a b : Quaternion) :
  Quat.unit a -> Quat.unit b -> Quat.unit (Quat.mul a b).
Proof.
  unfold Quat.unit; intros Ha Hb; rewrite norm2_mul, Ha, Hb; ring.
Qed.

Lemma rotate_identity (v : Vector3) : Quat.rotate Quat.identity v = v.
Proof.
  destruct v as [a b c]; unfold Quat.rotate; simpl; f_equal; ring.
Qed.

Lemma lit_0_5 : 0.5 = 1 / 2.
Proof. lra. Qed.

Lemma lit_0_25 : 0.25 = 1 / 4.
Proof. lra. Qed.

Lemma lit_2_0 : 2.0 = 2.
Proof. lra. Qed.

Lemma lit_1_0 : 1.0 = 1.
Proof. lra. Qed.

Lemma sqrt_4sq (c e : R) : e = 4 * (c * c) -> sqrt e = 2 * Rabs c.
Proof.
  intros ->. replace (4 * (c * c)) with (Rsqr (2 * c)) by (unfold Rsqr; ring).
  rewrite sqrt_Rsqr_abs, Rabs_mult, (Rabs_pos_eq 2); lra.
Qed.

Lemma Rgtb_true (a b : R) : KDL.Rgtb a b = true <-> a > b.
Proof.
  unfold KDL.Rgtb; destruct (Rgt_dec a b); split; intros; auto; discriminate.
Qed.

Lemma Rgtb_false (a b : R) : KDL.Rgtb a b = false <-> a <= b.
Proof.
  unfold KDL.Rgtb; destruct (Rgt_dec a b); split; intros; auto; try discriminate; lra.
Qed.

(** Closes one branch of [GetQuaternion]: the pivot [c] is the component
    under the square root, and the result is [q] or [-q] by its sign. *)
Ltac pivot c :=
  let Hc := fresh "Hc" in
  rewrite (sqrt_4sq c) by lra;
  destruct (Rcase_abs c) as [Hc | Hc];
  [ right; rewrite Rabs_left by lra | left; rewrite Rabs_right by lra ];
  f_equal; field; lra.

(** On the matrix of a unit quaternion, [GetQuaternion] returns that
    quaternion up to sign. *)
Lemma GetQuaternion_unit (q : Quaternion) :
  Quat.unit q ->
  Quaternion_of (KDL.GetQuaternion (Rotation_of q)) = q
  \/ Quaternion_of (KDL.GetQuaternion (Rotation_of q)) = Quat.neg q.
Proof.
  destruct q as [x y z w]; unfold Quat.unit, Quat.norm2, Quat.neg, Rotation_of; simpl; intros U.
  unfold KDL.GetQuaternion, KDL.Quaternion, Quaternion_of;
    cbn [KDL.d0 KDL.d1 KDL.d2 KDL.d3 KDL.d4 KDL.d5 KDL.d6 KDL.d7 KDL.d8]; cbv zeta.
  rewrite lit_0_5, lit_0_25, lit_2_0, lit_1_0.
  destruct (KDL.Rgtb _ (1 / 1000000000000)) eqn:E1.
  - apply Rgtb_true in E1.
    assert (w <> 0) by nra.
    pivot w.
  - apply Rgtb_false in E1.
    destruct (KDL.Rgtb _ _ && KDL.Rgtb _ _)%bool eqn:E2.
    + apply andb_prop in E2 as [E2 E3]. apply Rgtb_true in E2, E3.
      assert (x <> 0) by nra.
      pivot x.
    + destruct (KDL.Rgtb _ _) eqn:E3 in |- *.
      * apply Rgtb_true in E3.
        assert (y <> 0) by nra.
        pivot y.
      * apply Rgtb_false in E3.
        assert (z <> 0).
        { apply Bool.andb_false_iff in E2. rewrite !Rgtb_false in E2. destruct E2; nra. }
        pivot z.
Qed.

Lemma neg_same_rotation (q : Quaternion) : Rotation_of (Quat.neg q) = Rotation_of q.
Proof.
  destruct q as [x y z w]; unfold Rotation_of, Quat.neg, KDL.Quaternion; simpl.
  f_equal; ring.
Qed.


Lemma doTransform_Vector3_rotate (t_in t_out : Vector3) (T : TransformStamped) :
  doTransform_Vector3 t_in t_out T = Quat.rotate (rotation (transform T)) t_in.
Proof.
  unfold doTransform_Vector3, gmTransformToKDL; cbn [KDL.M].
  rewrite Quaternion_acts_as_rotate; cbn zeta.
  now destruct (Quat.rotate _ _).
Qed.

(** ** Transform application *)

(** C1. [doTransform] on a [PointStamped] returns the point
    [R(transform) p + t(transform)], where [R] is the rotation of the
    transform's quaternion (as a KDL matrix and, equally, as conjugation
    by the quaternion) and [t] its translation; the header of the result
    is the header of the transform, whatever the headers of the source
    and of the previous output were. *)
Theorem doTransform_PointStamped_rigid
    (t_in t_out : PointStamped) (T : TransformStamped) :
  let r := doTransform_PointStamped t_in t_out T in
  let q := rotation (transform T) in
  let t := translation (transform T) in
  let p_in := point t_in in
  KDL.mkVector (Point_x (point r)) (Point_y (point r)) (Point_z (point r))
  = KDL.Vector_add
      (KDL.Rotation_mul_Vector
         (KDL.Quaternion (Quaternion_x q) (Quaternion_y q) (Quaternion_z q) (Quaternion_w q))
         (KDL.mkVector (Point_x p_in) (Point_y p_in) (Point_z p_in)))
      (KDL.mkVector (Vector3_x t) (Vector3_y t) (Vector3_z t))
  /\ Vector3_of_Point (point r) = apply_rigid T (Vector3_of_Point p_in)
  /\ stamp (PointStamped_header r) = stamp (TransformStamped_header T)
  /\ frame_id (PointStamped_header r) = frame_id (TransformStamped_header T).
Proof.
  destruct t_in as [h_in [px py pz]], t_out as [h_out p_out].
  destruct T as [hT c [[tx ty tz] [qx qy qz qw]]].
  cbv zeta; split; [| split; [| split]].
  - reflexivity.
  - unfold Vector3_of_Point, apply_rigid, Vector3_add, Quat.rotate,
      doTransform_PointStamped, gmTransformToKDL; unfold_kdl.
    f_equal; ring.
  - reflexivity.
  - reflexivity.
Qed.

(** C2. [doTransform] on a bare [Vector3] returns [R(transform) v]: the
    rotation alone, with no contribution of the translation.  In
    particular a transform with the identity rotation returns the vector
    unchanged, whatever its translation. *)
Theorem doTransform_Vector3_rotation_only
    (t_in t_out : Vector3) (T : TransformStamped) :
  let q := rotation (transform T) in
  let r := doTransform_Vector3 t_in t_out T in
  KDL.mkVector (Vector3_x r) (Vector3_y r) (Vector3_z r)
  = KDL.Rotation_mul_Vector
      (KDL.Quaternion (Quaternion_x q) (Quaternion_y q) (Quaternion_z q) (Quaternion_w q))
      (KDL.mkVector (Vector3_x t_in) (Vector3_y t_in) (Vector3_z t_in))
  /\ r = Quat.rotate q t_in
  /\ (forall (h : Header) (c : string) (t : Vector3) (out : Vector3),
        doTransform_Vector3 t_in out (mkTransformStamped h c (mkTransform t q)) = r)
  /\ (forall (h : Header) (c : string) (t : Vector3),
        doTransform_Vector3 t_in t_out
          (mkTransformStamped h c (mkTransform t Quat.identity))
        = t_in).
Proof.
  cbv zeta; split; [| split; [| split]].
  - reflexivity.
  - apply doTransform_Vector3_rotate.
  - intros; now rewrite !doTransform_Vector3_rotate.
  - intros; rewrite doTransform_Vector3_rotate; apply rotate_identity.
Qed.

(** C3. [doTransform] on a [Vector3Stamped] applies the [Vector3] rule to
    the inner vector, and the header of the result is the header of the
    transform: neither the source's header nor the previous header of the
    output survives. *)
Theorem doTransform_Vector3Stamped_rule
    (t_in t_out : Vector3Stamped) (T : TransformStamped) :
  let r := doTransform_Vector3Stamped t_in t_out T in
  vector r = doTransform_Vector3 (vector t_in) (vector t_out) T
  /\ vector r = Quat.rotate (rotation (transform T)) (vector t_in)
  /\ stamp (Vector3Stamped_header r) = stamp (TransformStamped_header T)
  /\ frame_id (Vector3Stamped_header r) = frame_id (TransformStamped_header T)
  /\ Vector3Stamped_header r = TransformStamped_header T.
Proof.
  cbv zeta; split; [| split; [| split; [| split]]].
  - reflexivity.
  - unfold doTransform_Vector3Stamped; cbn. apply doTransform_Vector3_rotate.
  - reflexivity.
  - reflexivity.
  - unfold doTransform_Vector3Stamped; cbn. now destruct (TransformStamped_header T).
Qed.

Lemma doTransform_PoseStamped_orientation
    (t_in t_out : PoseStamped) (T : TransformStamped) :
  orientation (pose (doTransform_PoseStamped t_in t_out T))
  = Quaternion_of
      (KDL.GetQuaternion
         (KDL.Rotation_mul (Rotation_of (rotation (transform T)))
                           (Rotation_of (orientation (pose t_in))))).
Proof.
  unfold doTransform_PoseStamped, gmTransformToKDL, KDL.Frame_mul, Rotation_of, Quaternion_of;
    cbn [KDL.M KDL.p].
  now destruct (KDL.GetQuaternion _) as [[[qx qy] qz] qw].
Qed.

Lemma doTransform_PoseStamped_position
    (t_in t_out : PoseStamped) (T : TransformStamped) :
  position (pose (doTransform_PoseStamped t_in t_out T))
  = let v := KDL.Frame_mul_Vector (gmTransformToKDL T)
               (KDL.mkVector (Point_x (position (pose t_in)))
                             (Point_y (position (pose t_in)))
                             (Point_z (position (pose t_in)))) in
    mkPoint (KDL.v0 v) (KDL.v1 v) (KDL.v2 v).
Proof.
  unfold doTransform_PoseStamped, KDL.Frame_mul; cbn [KDL.M KDL.p].
  now destruct (KDL.GetQuaternion _) as [[[qx qy] qz] qw].
Qed.

Lemma doTransform_PoseStamped_header
    (t_in t_out : PoseStamped) (T : TransformStamped) :
  PoseStamped_header (doTransform_PoseStamped t_in t_out T) = TransformStamped_header T.
Proof.
  unfold doTransform_PoseStamped.
  destruct (KDL.GetQuaternion _) as [[[qx qy] qz] qw]; cbn.
  now destruct (TransformStamped_header T).
Qed.


(** The unit premise on the orientation cannot be dropped: on the
    orientation [(0, 0, 0, 2)] and the identity transform, [GetQuaternion]
    is given four times the identity matrix and returns a quaternion of
    another matrix. *)
Remark doTransform_PoseStamped_not_unit :
  let t_in := mkPoseStamped (mkHeader (mkTime 0 0) "a")
                (mkPose (mkPoint 0 0 0) (mkQuaternion 0 0 0 2)) in
  let T := mkTransformStamped (mkHeader (mkTime 0 0) "b") "a"
             (mkTransform (mkVector3 0 0 0) Quat.identity) in
  Rotation_of (orientation (pose (doTransform_PoseStamped t_in t_in T)))
  <> KDL.Rotation_mul (Rotation_of (rotation (transform T)))
                      (Rotation_of (orientation (pose t_in))).
Proof.
  cbv zeta. rewrite doTransform_PoseStamped_orientation. cbn [rotation transform orientation pose].
  rewrite Quaternion_mul_hom.
  unfold Quat.mul, Quat.identity, Rotation_of at 2, KDL.Quaternion; cbn.
  unfold KDL.GetQuaternion; cbn [KDL.d0 KDL.d4 KDL.d8]; cbv zeta.
  rewrite (proj2 (Rgtb_true _ _)) by lra.
  unfold Quaternion_of, Rotation_of, KDL.Quaternion; cbn.
  rewrite lit_0_5, lit_0_25, lit_1_0.
  intros E. apply (f_equal KDL.d0) in E. cbn in E.
  assert (S13 : sqrt 13 * sqrt 13 = 13) by (apply sqrt_sqrt; lra).
  assert (P13 : 0 < sqrt 13) by (apply sqrt_lt_R0; lra).
  match type of E with context [sqrt ?a] => replace a with 13 in E by lra end.
  assert (W : 1 / 4 / (1 / 2 / sqrt 13) = sqrt 13 / 2) by (field; lra).
  rewrite W in E. nra.
Qed.

(** C5. [doTransform] on a [Wrench] applies the rotation-only [Vector3]
    rule to the force and to the torque, each from its own input and with
    no contribution of the translation; on a [WrenchStamped] it applies
    this rule to the inner wrench and takes the header of the transform. *)
Theorem doTransform_Wrench_rule
    (t_in t_out : Wrench) (T : TransformStamped) :
  let r := doTransform_Wrench t_in t_out T in
  let q := rotation (transform T) in
  force r = doTransform_Vector3 (force t_in) (force t_out) T
  /\ torque r = doTransform_Vector3 (torque t_in) (torque t_out) T
  /\ force r = Quat.rotate q (force t_in)
  /\ torque r = Quat.rotate q (torque t_in)
  /\ (forall s_in s_out : WrenchStamped,
        let rs := doTransform_WrenchStamped s_in s_out T in
        wrench rs = doTransform_Wrench (wrench s_in) (wrench s_out) T
        /\ stamp (WrenchStamped_header rs) = stamp (TransformStamped_header T)
        /\ frame_id (WrenchStamped_header rs) = frame_id (TransformStamped_header T)).
Proof.
  cbv zeta; split; [| split; [| split; [| split]]].
  - reflexivity.
  - reflexivity.
  - unfold doTransform_Wrench; cbn. apply doTransform_Vector3_rotate.
  - unfold doTransform_Wrench; cbn. apply doTransform_Vector3_rotate.
  - intros; split; [| split]; reflexivity.
Qed.

(** The point [(1, 0, 0)] of frame ["a"], turned a quarter about z and
    shifted by [(0, 0, 5)], is the point [(0, 1, 5)] of frame ["b"]. *)
Example quarter_turn_point :
  doTransform_PointStamped sample_point sample_point quarter_turn_z
  = mkPointStamped (mkHeader (mkTime 10 500) "b") (mkPoint 0 1 5).
Proof.
  pose proof (sqrt_sqrt 2 ltac:(lra)) as S.
  unfold doTransform_PointStamped, gmTransformToKDL; unfold_kdl.
  unfold set_PointStamped_header, set_point, set_stamp, set_frame_id,
    set_Point_x, set_Point_y, set_Point_z; simpl.
  f_equal; f_equal; nra.
Qed.

(** The same transform on the wrench with force [(1, 0, 0)] and torque
    [(0, 0, 1)]: the force turns to [(0, 1, 0)], the torque along z stays. *)
Example quarter_turn_wrench :
  doTransform_Wrench sample_wrench sample_wrench quarter_turn_z
  = mkWrench (mkVector3 0 1 0) (mkVector3 0 0 1).
Proof.
  pose proof (sqrt_sqrt 2 ltac:(lra)) as S.
  unfold doTransform_Wrench, doTransform_Vector3, gmTransformToKDL; unfold_kdl.
  unfold set_force, set_torque, set_Vector3_x, set_Vector3_y, set_Vector3_z; simpl.
  f_equal; f_equal; nra.
Qed.

(** ** Composition and dependence on the rotation alone *)

Lemma Frame_mul_Vector_assoc (f2 f1 : KDL.Frame) (v : KDL.Vector) :
  KDL.Frame_mul_Vector (KDL.Frame_mul f2 f1) v
  = KDL.Frame_mul_Vector f2 (KDL.Frame_mul_Vector f1 v).
Proof.
  destruct f2 as [[a0 a1 a2 a3 a4 a5 a6 a7 a8] [p0 p1 p2]].
  destruct f1 as [[b0 b1 b2 b3 b4 b5 b6 b7 b8] [r0 r1 r2]].
  destruct v as [x y z]; unfold_kdl.
  f_equal; ring.
Qed.

Lemma doTransform_PointStamped_point (t_in t_out : PointStamped) (T : TransformStamped) :
  point (doTransform_PointStamped t_in t_out T)
  = let v := KDL.Frame_mul_Vector (gmTransformToKDL T)
               (KDL.mkVector (Point_x (point t_in)) (Point_y (point t_in))
                             (Point_z (point t_in))) in
    mkPoint (KDL.v0 v) (KDL.v1 v) (KDL.v2 v).
Proof. reflexivity. Qed.

Lemma doTransform_PointStamped_header (t_in t_out : PointStamped) (T : TransformStamped) :
  PointStamped_header (doTransform_PointStamped t_in t_out T) = TransformStamped_header T.
Proof.
  unfold doTransform_PointStamped; cbn. now destruct (TransformStamped_header T).
Qed.

Lemma gmTransformToKDL_compose (T2 T1 : TransformStamped) :
  gmTransformToKDL (compose T2 T1)
  = KDL.Frame_mul (gmTransformToKDL T2) (gmTransformToKDL T1).
Proof.
  destruct T2 as [h2 c2 [[t2x t2y t2z] [x2 y2 z2 w2]]].
  destruct T1 as [h1 c1 [[t1x t1y t1z] [x1 y1 z1 w1]]].
  unfold gmTransformToKDL, compose, apply_rigid, Vector3_add, Quat.rotate; unfold_kdl.
  f_equal; f_equal; ring.
Qed.

(** C9. Applying [doTransform] with [T1] and then with [T2] to a point
    gives the same message as applying it once with the composed
    transform [T2 o T1]; the same point results from any transform
    message whose KDL frame is the product of the two frames.  The
    composition of two transforms with unit rotations has a unit
    rotation. *)
Theorem doTransform_PointStamped_compose
    (t_in o1 o2 o12 : PointStamped) (T1 T2 : TransformStamped) :
  let twice := doTransform_PointStamped (doTransform_PointStamped t_in o1 T1) o2 T2 in
  gmTransformToKDL (compose T2 T1)
    = KDL.Frame_mul (gmTransformToKDL T2) (gmTransformToKDL T1)
  /\ twice = doTransform_PointStamped t_in o12 (compose T2 T1)
  /\ (forall T12 : TransformStamped,
        gmTransformToKDL T12
          = KDL.Frame_mul (gmTransformToKDL T2) (gmTransformToKDL T1) ->
        point twice = point (doTransform_PointStamped t_in o12 T12))
  /\ (Quat.unit (rotation (transform T1)) -> Quat.unit (rotation (transform T2)) ->
        Quat.unit (rotation (transform (compose T2 T1)))).
Proof.
  assert (P : forall T12 : TransformStamped,
             gmTransformToKDL T12
               = KDL.Frame_mul (gmTransformToKDL T2) (gmTransformToKDL T1) ->
             point (doTransform_PointStamped (doTransform_PointStamped t_in o1 T1) o2 T2)
             = point (doTransform_PointStamped t_in o12 T12)).
  { intros T12 E.
    rewrite (doTransform_PointStamped_point t_in o12 T12), E, Frame_mul_Vector_assoc.
    reflexivity. }
  cbv zeta; split; [| split; [| split]].
  - apply gmTransformToKDL_compose.
  - specialize (P _ (gmTransformToKDL_compose T2 T1)).
    pose proof (doTransform_PointStamped_header
                  (doTransform_PointStamped t_in o1 T1) o2 T2) as H2.
    pose proof (doTransform_PointStamped_header t_in o12 (compose T2 T1)) as H12.
    destruct (doTransform_PointStamped (doTransform_PointStamped t_in o1 T1) o2 T2)
      as [h pt].
    destruct (doTransform_PointStamped t_in o12 (compose T2 T1)) as [h' pt'].
    cbn in *. congruence.
  - exact P.
  - intros U1 U2. cbn. now apply unit_mul.
Qed.

(** C10. The results of [doTransform] on a bare [Vector3] and on a bare
    [Wrench] depend on the transform through its rotation quaternion
    only: two transforms with the same rotation give the same result,
    whatever their translations, stamps, frames and child frames (and
    whatever the previous contents of the outputs). *)
Theorem doTransform_depends_on_rotation_only (T1 T2 : TransformStamped) :
  rotation (transform T1) = rotation (transform T2) ->
  (forall v o1 o2 : Vector3,
     doTransform_Vector3 v o1 T1 = doTransform_Vector3 v o2 T2)
  /\ (forall w o1 o2 : Wrench,
        doTransform_Wrench w o1 T1 = doTransform_Wrench w o2 T2).
Proof.
  intros E.
  assert (V : forall v o1 o2 : Vector3,
             doTransform_Vector3 v o1 T1 = doTransform_Vector3 v o2 T2).
  { intros; rewrite !doTransform_Vector3_rotate, E; reflexivity. }
  split; [exact V |].
  intros w o1 o2; unfold doTransform_Wrench, set_torque, set_force; cbn [force torque].
  f_equal; apply V.
Qed.

(** ** The overload set, conversions and covariance *)

(** C6, the claim as stated fails: [PoseWithCovarianceStamped] is one of
    the five stamped types and has its two header accessors, and the
    header defines no [doTransform] for it. *)
Lemma provides_all_fails_PoseWithCovarianceStamped :
  In PoseWithCovarianceStampedT stamped_types
  /\ defined (getTimestamp PoseWithCovarianceStampedT) = true
  /\ defined (getFrameId PoseWithCovarianceStampedT) = true
  /\ defined (doTransform PoseWithCovarianceStampedT) = false
  /\ ~ (forall k : StampedType, In k stamped_types -> provides_all k = true).
Proof.
  split; [simpl; tauto |].
  split; [reflexivity | split; [reflexivity | split; [reflexivity |]]].
  intros H. specialize (H PoseWithCovarianceStampedT). simpl in H.
  assert (F : false = true) by (apply H; tauto). discriminate F.
Qed.

(** C6, amended.  Every one of the five stamped types has a timestamp
    accessor and a frame accessor, each reading the header of its
    message; a transform application exists for [Vector3Stamped],
    [PointStamped], [PoseStamped] and [WrenchStamped], and none for
    [PoseWithCovarianceStamped]. *)
Theorem stamped_types_services (k : StampedType) :
  In k stamped_types
  /\ defined (getTimestamp k) = true
  /\ defined (getFrameId k) = true
  /\ defined (doTransform k)
     = match k with PoseWithCovarianceStampedT => false | _ => true end
  /\ provides_all k
     = match k with PoseWithCovarianceStampedT => false | _ => true end.
Proof.
  destruct k; simpl; repeat split; tauto.
Qed.

(** C7, the claim as stated fails: the header defines neither [toMsg] nor
    [fromMsg] for [PoseWithCovarianceStamped]. *)
Lemma identity_conversion_fails_PoseWithCovarianceStamped :
  In PoseWithCovarianceStampedT stamped_types
  /\ defined (toMsg PoseWithCovarianceStampedT) = false
  /\ defined (fromMsg PoseWithCovarianceStampedT) = false
  /\ ~ identity_conversion PoseWithCovarianceStampedT
  /\ ~ (forall k : StampedType, In k stamped_types -> identity_conversion k).
Proof.
  assert (N : ~ identity_conversion PoseWithCovarianceStampedT).
  { intros (to & from & E & _). simpl in E. discriminate E. }
  split; [simpl; tauto |].
  split; [reflexivity | split; [reflexivity | split; [exact N |]]].
  intros H. apply N, H. simpl; tauto.
Qed.

(** C7, amended.  For [Vector3Stamped], [PointStamped], [PoseStamped] and
    [WrenchStamped], [toMsg] and [fromMsg] exist and are identities:
    [toMsg x] is [x], [fromMsg x out] leaves [x] in [out], and so
    [fromMsg (toMsg x)] gives back [x].  For [PoseWithCovarianceStamped]
    the header defines neither. *)
Theorem identity_conversions :
  identity_conversion Vector3StampedT
  /\ identity_conversion PointStampedT
  /\ identity_conversion PoseStampedT
  /\ identity_conversion WrenchStampedT
  /\ defined (toMsg PoseWithCovarianceStampedT) = false
  /\ defined (fromMsg PoseWithCovarianceStampedT) = false.
Proof.
  unfold identity_conversion; simpl.
  repeat split; eexists; eexists; (split; [reflexivity | split; [reflexivity |]]);
    intros x out; repeat split.
Qed.

Lemma length36_inv (A : Type) (l : list A) :
  List.length l = 36%nat ->
  exists a0 a1 a2 a3 a4 a5 b0 b1 b2 b3 b4 b5 c0 c1 c2 c3 c4 c5
         d0 d1 d2 d3 d4 d5 e0 e1 e2 e3 e4 e5 f0 f1 f2 f3 f4 f5,
    l = [a0; a1; a2; a3; a4; a5; b0; b1; b2; b3; b4; b5; c0; c1; c2; c3; c4; c5;
         d0; d1; d2; d3; d4; d5; e0; e1; e2; e3; e4; e5; f0; f1; f2; f3; f4; f5].
Proof.
  intros H.
  do 36 (destruct l as [| ? l]; [discriminate H |]).
  destruct l; [| discriminate H].
  repeat eexists.
Qed.

(** C8.  For a message whose covariance array has its 36 entries,
    [getCovarianceMatrix] returns six rows of six entries, row [i] being
    the entries [6i .. 6i+5] of the array, entry [(i, j)] being entry
    [6i + j]; nothing is validated, and the rows laid end to end are the
    array again. *)
Theorem getCovarianceMatrix_reshape (t : PoseWithCovarianceStamped) :
  let cov := covariance (PoseWithCovarianceStamped_pose t) in
  let m := getCovarianceMatrix t in
  List.length cov = 36%nat ->
  List.length m = 6%nat
  /\ Forall (fun row => List.length row = 6%nat) m
  /\ (forall i, (i < 6)%nat -> nth i m [] = firstn 6 (skipn (6 * i) cov))
  /\ (forall i j, (i < 6)%nat -> (j < 6)%nat ->
        nth j (nth i m []) 0 = nth (6 * i + j) cov 0)
  /\ List.concat m = cov.
Proof.
  cbv zeta; unfold getCovarianceMatrix; intros H.
  apply length36_inv in H.
  destruct H as (a0 & a1 & a2 & a3 & a4 & a5 & b0 & b1 & b2 & b3 & b4 & b5
                 & c0 & c1 & c2 & c3 & c4 & c5 & d0 & d1 & d2 & d3 & d4 & d5
                 & e0 & e1 & e2 & e3 & e4 & e5 & f0 & f1 & f2 & f3 & f4 & f5 & ->).
  split; [reflexivity |].
  split; [repeat constructor |].
  split; [| split].
  - intros i Hi.
    do 6 (destruct i as [| i]; [reflexivity |]). lia.
  - intros i j Hi Hj.
    do 6 (destruct i as [| i];
          [do 6 (destruct j as [| j]; [reflexivity |]); lia |]).
    lia.
  - reflexivity.
Qed.

(** ** Witnesses on the sample messages *)


Lemma doTransform_PointStamped_compose_witness :
  gmTransformToKDL (compose sample_T2 sample_T1)
    = KDL.Frame_mul (gmTransformToKDL sample_T2) (gmTransformToKDL sample_T1)
  /\ Quat.unit (rotation (transform sample_T1))
  /\ Quat.unit (rotation (transform sample_T2))
  /\ point (doTransform_PointStamped
              (doTransform_PointStamped sample_point sample_point sample_T1)
              sample_point sample_T2)
     = point (doTransform_PointStamped sample_point sample_point
                (compose sample_T2 sample_T1))
  /\ Quat.unit (rotation (transform (compose sample_T2 sample_T1))).
Proof.
  assert (U1 : Quat.unit (rotation (transform sample_T1)))
    by (unfold Quat.unit, Quat.norm2; simpl; lra).
  assert (U2 : Quat.unit (rotation (transform sample_T2)))
    by (unfold Quat.unit, Quat.norm2; simpl; lra).
  destruct (doTransform_PointStamped_compose sample_point sample_point sample_point
              sample_point sample_T1 sample_T2) as (HK & _ & HP & HU).
  split; [exact HK | split; [exact U1 | split; [exact U2 | split]]].
  - exact (HP _ HK).
  - exact (HU U1 U2).
Defined.

Lemma doTransform_depends_on_rotation_only_witness :
  rotation (transform sample_T1) = rotation (transform sample_T1')
  /\ translation (transform sample_T1) <> translation (transform sample_T1')
  /\ doTransform_Vector3 (force sample_wrench) (force sample_wrench) sample_T1
     = doTransform_Vector3 (force sample_wrench) (torque sample_wrench) sample_T1'
  /\ doTransform_Wrench sample_wrench sample_wrench sample_T1
     = doTransform_Wrench sample_wrench sample_wrench sample_T1'.
Proof.
  assert (E : rotation (transform sample_T1) = rotation (transform sample_T1'))
    by reflexivity.
  split; [exact E | split].
  - simpl. intros H. apply (f_equal Vector3_z) in H. simpl in H. lra.
  - destruct (doTransform_depends_on_rotation_only sample_T1 sample_T1' E) as [HV HW].
    split; [apply HV | apply HW].
Defined.

Lemma getCovarianceMatrix_reshape_witness :
  List.length (covariance (PoseWithCovarianceStamped_pose sample_covariance)) = 36%nat
  /\ nth 1 (getCovarianceMatrix sample_covariance) []
     = [INR 6; INR 7; INR 8; INR 9; INR 10; INR 11]
  /\ List.concat (getCovarianceMatrix sample_covariance)
     = covariance (PoseWithCovarianceStamped_pose sample_covariance).
Proof.
  assert (L : List.length (covariance (PoseWithCovarianceStamped_pose sample_covariance)) = 36%nat)
    by reflexivity.
  destruct (getCovarianceMatrix_reshape sample_covariance L) as (_ & _ & HR & _ & HC).
  split; [exact L | split; [| exact HC]].
  rewrite (HR 1%nat) by lia. reflexivity.
Defined.

(** ** Calls in place and on distinct objects *)

Ltac run_ref :=
  unfold doTransform_WrenchStamped_ref, doTransform_Wrench_ref,
    doTransform_Vector3Stamped_ref, doTransform_Vector3_ref,
    doTransform_PointStamped_ref, doTransform_PoseStamped_ref,
    doTransform_WrenchStamped, doTransform_Wrench,
    doTransform_Vector3Stamped, doTransform_Vector3,
    doTransform_PointStamped, doTransform_PoseStamped.

(** X1. A call in place, with [t_out] the very object [t_in], leaves in
    that object what the call on two objects leaves in [t_out]: no
    overload reads a field of [t_in] after it has written it through
    [t_out]. *)
Theorem doTransform_in_place (T : TransformStamped) :
  (forall v : Vector3,
     doTransform_Vector3_ref Ref.self Ref.self T v = doTransform_Vector3 v v T)
  /\ (forall v : Vector3Stamped,
        doTransform_Vector3Stamped_ref Ref.self Ref.self T v
        = doTransform_Vector3Stamped v v T)
  /\ (forall p : PointStamped,
        doTransform_PointStamped_ref Ref.self Ref.self T p
        = doTransform_PointStamped p p T)
  /\ (forall p : PoseStamped,
        doTransform_PoseStamped_ref Ref.self Ref.self T p
        = doTransform_PoseStamped p p T)
  /\ (forall w : Wrench,
        doTransform_Wrench_ref Ref.self Ref.self T w = doTransform_Wrench w w T)
  /\ (forall w : WrenchStamped,
        doTransform_WrenchStamped_ref Ref.self Ref.self T w
        = doTransform_WrenchStamped w w T).
Proof.
  split; [| split; [| split; [| split; [| split]]]].
  - intros [x y z]; reflexivity.
  - intros [h [x y z]]; reflexivity.
  - intros [h [x y z]]; reflexivity.
  - intros [h [[x y z] q]]; run_ref.
    destruct (KDL.GetQuaternion _) as [[[qx qy] qz] qw]; reflexivity.
  - intros [[fx fy fz] [tx ty tz]]; reflexivity.
  - intros [h [[fx fy fz] [tx ty tz]]]; reflexivity.
Qed.

(** X2. A call on two distinct objects never changes [t_in], and leaves
    in [t_out] the value the state-passing functions compute from the
    two. *)
Theorem doTransform_distinct_objects (T : TransformStamped) :
  (forall a b : Vector3,
     doTransform_Vector3_ref Ref.first Ref.second T (a, b)
     = (a, doTransform_Vector3 a b T))
  /\ (forall a b : Vector3Stamped,
        doTransform_Vector3Stamped_ref Ref.first Ref.second T (a, b)
        = (a, doTransform_Vector3Stamped a b T))
  /\ (forall a b : PointStamped,
        doTransform_PointStamped_ref Ref.first Ref.second T (a, b)
        = (a, doTransform_PointStamped a b T))
  /\ (forall a b : PoseStamped,
        doTransform_PoseStamped_ref Ref.first Ref.second T (a, b)
        = (a, doTransform_PoseStamped a b T))
  /\ (forall a b : Wrench,
        doTransform_Wrench_ref Ref.first Ref.second T (a, b)
        = (a, doTransform_Wrench a b T))
  /\ (forall a b : WrenchStamped,
        doTransform_WrenchStamped_ref Ref.first Ref.second T (a, b)
        = (a, doTransform_WrenchStamped a b T)).
Proof.
  split; [| split; [| split; [| split; [| split]]]].
  - intros a b; reflexivity.
  - intros a b; reflexivity.
  - intros a b; reflexivity.
  - intros a b; run_ref.
    destruct (KDL.GetQuaternion _) as [[[qx qy] qz] qw]; reflexivity.
  - intros a b; reflexivity.
  - intros a b; reflexivity.
Qed.

(** ** What the results do not depend on *)

Lemma doTransform_PoseStamped_eq (t_in t_out : PoseStamped) (T : TransformStamped) :
  doTransform_PoseStamped t_in t_out T
  = mkPoseStamped (TransformStamped_header T)
      (mkPose
         (let v := KDL.Frame_mul_Vector (gmTransformToKDL T)
                     (KDL.mkVector (Point_x (position (pose t_in)))
                                   (Point_y (position (pose t_in)))
                                   (Point_z (position (pose t_in)))) in
          mkPoint (KDL.v0 v) (KDL.v1 v) (KDL.v2 v))
         (Quaternion_of
            (KDL.GetQuaternion
               (KDL.Rotation_mul (Rotation_of (rotation (transform T)))
                                 (Rotation_of (orientation (pose t_in))))))).
Proof.
  pose proof (doTransform_PoseStamped_header t_in t_out T) as H.
  pose proof (doTransform_PoseStamped_position t_in t_out T) as P.
  pose proof (doTransform_PoseStamped_orientation t_in t_out T) as O.
  destruct (doTransform_PoseStamped t_in t_out T) as [h [pos ori]].
  cbn in H, P, O. now rewrite H, P, O.
Qed.

(** X3. Every overload assigns every field of [t_out]: nothing of the
    previous contents of the output, header included, is left in the
    result. *)
Theorem doTransform_overwrites_output (T : TransformStamped) :
  (forall v o1 o2 : Vector3, doTransform_Vector3 v o1 T = doTransform_Vector3 v o2 T)
  /\ (forall v o1 o2 : Vector3Stamped,
        doTransform_Vector3Stamped v o1 T = doTransform_Vector3Stamped v o2 T)
  /\ (forall p o1 o2 : PointStamped,
        doTransform_PointStamped p o1 T = doTransform_PointStamped p o2 T)
  /\ (forall p o1 o2 : PoseStamped,
        doTransform_PoseStamped p o1 T = doTransform_PoseStamped p o2 T)
  /\ (forall w o1 o2 : Wrench, doTransform_Wrench w o1 T = doTransform_Wrench w o2 T)
  /\ (forall w o1 o2 : WrenchStamped,
        doTransform_WrenchStamped w o1 T = doTransform_WrenchStamped w o2 T).
Proof.
  split; [| split; [| split; [| split; [| split]]]]; intros; reflexivity.
Qed.

(** X4. No overload looks at the frame or the stamp of the source, or at
    the child frame of the transform: the transform is applied whether
    or not the source is in the frame the transform starts from, and two
    sources with the same payload give the same result. *)
Theorem doTransform_checks_no_frame
    (hT h1 h2 : Header) (c1 c2 : string) (tr : Transform) :
  let Ta := mkTransformStamped hT c1 tr in
  let Tb := mkTransformStamped hT c2 tr in
  (forall (v : Vector3) (o : Vector3Stamped),
     doTransform_Vector3Stamped (mkVector3Stamped h1 v) o Ta
     = doTransform_Vector3Stamped (mkVector3Stamped h2 v) o Tb)
  /\ (forall (p : Point) (o : PointStamped),
        doTransform_PointStamped (mkPointStamped h1 p) o Ta
        = doTransform_PointStamped (mkPointStamped h2 p) o Tb)
  /\ (forall (p : Pose) (o : PoseStamped),
        doTransform_PoseStamped (mkPoseStamped h1 p) o Ta
        = doTransform_PoseStamped (mkPoseStamped h2 p) o Tb)
  /\ (forall (w : Wrench) (o : WrenchStamped),
        doTransform_WrenchStamped (mkWrenchStamped h1 w) o Ta
        = doTransform_WrenchStamped (mkWrenchStamped h2 w) o Tb).
Proof.
  cbv zeta; split; [| split; [| split]]; intros; reflexivity.
Qed.

(** ** The geometry of the results *)

Ltac unfold_vec :=
  unfold doTransform_Vector3, doTransform_PointStamped, gmTransformToKDL,
    Vector3_of_Point, Vector3_add, Vector3_sub, Vector3_scale, dot,
    Quat.rotate, Quat.norm2, Rotation_scale, Rotation_transpose, Rotation_det,
    Rotation_identity, Rotation_of;
  unfold_kdl.

Lemma Rotation_of_orthogonal (q : Quaternion) :
  let n := Quat.norm2 q in
  KDL.Rotation_mul (Rotation_of q) (Rotation_transpose (Rotation_of q))
    = Rotation_scale (n * n) Rotation_identity
  /\ KDL.Rotation_mul (Rotation_transpose (Rotation_of q)) (Rotation_of q)
     = Rotation_scale (n * n) Rotation_identity
  /\ Rotation_det (Rotation_of q) = n * n * n.
Proof.
  destruct q as [x y z w]; cbv zeta; unfold_vec.
  split; [| split]; [f_equal; ring | f_equal; ring | ring].
Qed.

Lemma Rotation_scale_1 (r : KDL.Rotation) : Rotation_scale (1 * 1) r = r.
Proof.
  destruct r; unfold Rotation_scale; simpl; f_equal; ring.
Qed.

(** X5. The rotation part of the frame [gmTransformToKDL] builds is, for
    a rotation quaternion of squared norm [n], [n] times an orthogonal
    matrix of determinant one: [M M^T = M^T M = n^2 I] and [det M = n^3].
    For a unit quaternion it is a proper rotation; the origin of the
    frame is the translation of the message. *)
Theorem gmTransformToKDL_rotation (T : TransformStamped) :
  let f := gmTransformToKDL T in
  let n := Quat.norm2 (rotation (transform T)) in
  KDL.Rotation_mul (KDL.M f) (Rotation_transpose (KDL.M f))
    = Rotation_scale (n * n) Rotation_identity
  /\ KDL.Rotation_mul (Rotation_transpose (KDL.M f)) (KDL.M f)
     = Rotation_scale (n * n) Rotation_identity
  /\ Rotation_det (KDL.M f) = n * n * n
  /\ KDL.p f = KDL.mkVector (Vector3_x (translation (transform T)))
                            (Vector3_y (translation (transform T)))
                            (Vector3_z (translation (transform T)))
  /\ (Quat.unit (rotation (transform T)) ->
        KDL.Rotation_mul (KDL.M f) (Rotation_transpose (KDL.M f)) = Rotation_identity
        /\ KDL.Rotation_mul (Rotation_transpose (KDL.M f)) (KDL.M f) = Rotation_identity
        /\ Rotation_det (KDL.M f) = 1).
Proof.
  cbv zeta.
  change (KDL.M (gmTransformToKDL T)) with (Rotation_of (rotation (transform T))).
  destruct (Rotation_of_orthogonal (rotation (transform T))) as (A & B & C).
  cbv zeta in A, B, C.
  split; [exact A | split; [exact B | split; [exact C | split; [reflexivity |]]]].
  intros U; unfold Quat.unit in U. rewrite U in A, B, C.
  rewrite Rotation_scale_1 in A, B.
  split; [exact A | split; [exact B | rewrite C; ring]].
Qed.

Lemma rotate_dot (q : Quaternion) (v w : Vector3) :
  dot (Quat.rotate q v) (Quat.rotate q w) = Quat.norm2 q * Quat.norm2 q * dot v w.
Proof.
  destruct q as [x y z s], v as [a b c], w as [d e f]; unfold_vec; ring.
Qed.

(** X6. [doTransform] on bare vectors multiplies scalar products, and so
    squared lengths, by the square of the squared norm of the rotation
    quaternion; with a unit quaternion it keeps lengths and angles. *)
Theorem doTransform_Vector3_dot (v w o1 o2 : Vector3) (T : TransformStamped) :
  let n := Quat.norm2 (rotation (transform T)) in
  dot (doTransform_Vector3 v o1 T) (doTransform_Vector3 w o2 T) = n * n * dot v w
  /\ (Quat.unit (rotation (transform T)) ->
        dot (doTransform_Vector3 v o1 T) (doTransform_Vector3 w o2 T) = dot v w
        /\ dot (doTransform_Vector3 v o1 T) (doTransform_Vector3 v o1 T) = dot v v).
Proof.
  cbv zeta. rewrite !doTransform_Vector3_rotate.
  split; [apply rotate_dot |].
  intros U; unfold Quat.unit in U.
  rewrite !rotate_dot, U; split; ring.
Qed.

Lemma doTransform_PointStamped_apply_rigid (t_in t_out : PointStamped) (T : TransformStamped) :
  Vector3_of_Point (point (doTransform_PointStamped t_in t_out T))
  = apply_rigid T (Vector3_of_Point (point t_in)).
Proof.
  destruct t_in as [h_in [px py pz]].
  destruct T as [hT c [[tx ty tz] [qx qy qz qw]]].
  unfold apply_rigid; unfold_vec. f_equal; ring.
Qed.

(** X7. [doTransform] on points is rigid up to the norm of the
    quaternion: the difference of two transformed points is the rotated
    difference of the two points, the translation cancels, and with a
    unit quaternion the distance between the points is kept. *)
Theorem doTransform_PointStamped_distance
    (a b o1 o2 : PointStamped) (T : TransformStamped) :
  let n := Quat.norm2 (rotation (transform T)) in
  let d_in := Vector3_sub (Vector3_of_Point (point a)) (Vector3_of_Point (point b)) in
  let d_out := Vector3_sub
                 (Vector3_of_Point (point (doTransform_PointStamped a o1 T)))
                 (Vector3_of_Point (point (doTransform_PointStamped b o2 T))) in
  d_out = Quat.rotate (rotation (transform T)) d_in
  /\ dot d_out d_out = n * n * dot d_in d_in
  /\ (Quat.unit (rotation (transform T)) -> dot d_out d_out = dot d_in d_in).
Proof.
  cbv zeta. rewrite !doTransform_PointStamped_apply_rigid.
  assert (E : Vector3_sub (apply_rigid T (Vector3_of_Point (point a)))
                          (apply_rigid T (Vector3_of_Point (point b)))
              = Quat.rotate (rotation (transform T))
                  (Vector3_sub (Vector3_of_Point (point a)) (Vector3_of_Point (point b)))).
  { destruct a as [ha [ax ay az]], b as [hb [bx by_ bz]].
    destruct T as [hT c [[tx ty tz] [qx qy qz qw]]].
    unfold apply_rigid; unfold_vec. f_equal; ring. }
  rewrite E. split; [reflexivity | split; [apply rotate_dot |]].
  intros U; unfold Quat.unit in U. rewrite rotate_dot, U; ring.
Qed.

(** X8. [doTransform] on bare vectors is linear in the vector: a linear
    combination of two vectors is sent to the same combination of their
    images. *)
Theorem doTransform_Vector3_linear
    (a b : R) (v w o o1 o2 : Vector3) (T : TransformStamped) :
  doTransform_Vector3 (Vector3_add (Vector3_scale a v) (Vector3_scale b w)) o T
  = Vector3_add (Vector3_scale a (doTransform_Vector3 v o1 T))
                (Vector3_scale b (doTransform_Vector3 w o2 T)).
Proof.
  rewrite !doTransform_Vector3_rotate.
  destruct v as [vx vy vz], w as [wx wy wz].
  destruct (rotation (transform T)) as [qx qy qz qw].
  unfold_vec. f_equal; ring.
Qed.

(** ** Chains of transforms, inverses and the identity *)


Lemma rotate_mul (a b : Quaternion) (v : Vector3) :
  Quat.rotate (Quat.mul a b) v = Quat.rotate a (Quat.rotate b v).
Proof.
  destruct a as [ax ay az aw], b as [bx by_ bz bw], v as [x y z].
  unfold Quat.rotate, Quat.mul, Quat.conj; simpl; f_equal; ring.
Qed.

Lemma rotate_conj (q : Quaternion) (v : Vector3) :
  Quat.rotate (Quat.conj q) (Quat.rotate q v)
  = Vector3_scale (Quat.norm2 q * Quat.norm2 q) v.
Proof.
  destruct q as [qx qy qz qw], v as [x y z]; unfold_vec.
  unfold Quat.mul, Quat.conj; simpl; f_equal; ring.
Qed.

Lemma Vector3_scale_1 (v : Vector3) : Vector3_scale (1 * 1) v = v.
Proof.
  destruct v; unfold Vector3_scale; simpl; f_equal; ring.
Qed.

Lemma GetQuaternion_same_rotation (q : Quaternion) :
  Quat.unit q ->
  Rotation_of (Quaternion_of (KDL.GetQuaternion (Rotation_of q))) = Rotation_of q.
Proof.
  intros U. destruct (GetQuaternion_unit q U) as [E | E]; rewrite E.
  - reflexivity.
  - apply neg_same_rotation.
Qed.

Lemma doTransform_Wrench_rotate (t_in t_out : Wrench) (T : TransformStamped) :
  doTransform_Wrench t_in t_out T
  = mkWrench (Quat.rotate (rotation (transform T)) (force t_in))
             (Quat.rotate (rotation (transform T)) (torque t_in)).
Proof.
  unfold doTransform_Wrench, set_torque, set_force; cbn [force torque].
  now rewrite !doTransform_Vector3_rotate.
Qed.

(** X9. On bare vectors and wrenches, applying [doTransform] with [T1]
    and then with [T2] is applying it once with the composed transform
    [T2 o T1], for all rotation quaternions, unit or not. *)
Theorem doTransform_Vector3_compose (T1 T2 : TransformStamped) :
  (forall v o1 o2 o12 : Vector3,
     doTransform_Vector3 (doTransform_Vector3 v o1 T1) o2 T2
     = doTransform_Vector3 v o12 (compose T2 T1))
  /\ (forall w o1 o2 o12 : Wrench,
        doTransform_Wrench (doTransform_Wrench w o1 T1) o2 T2
        = doTransform_Wrench w o12 (compose T2 T1)).
Proof.
  split; intros.
  - rewrite !doTransform_Vector3_rotate. cbn [compose transform rotation].
    now rewrite rotate_mul.
  - rewrite !doTransform_Wrench_rotate. cbn [compose transform rotation force torque].
    now rewrite !rotate_mul.
Qed.


(** X11. With a unit rotation, [doTransform] with a transform and then
    with its inverse gives back the point, the vector and the wrench one
    started from, in the child frame of the transform. *)
Theorem doTransform_inverse_round_trip (T : TransformStamped) :
  Quat.unit (rotation (transform T)) ->
  (forall p o1 o2 : PointStamped,
     let back := doTransform_PointStamped (doTransform_PointStamped p o1 T) o2 (inverse T) in
     point back = point p
     /\ frame_id (PointStamped_header back) = child_frame_id T)
  /\ (forall v o1 o2 : Vector3,
        doTransform_Vector3 (doTransform_Vector3 v o1 T) o2 (inverse T) = v)
  /\ (forall w o1 o2 : Wrench,
        doTransform_Wrench (doTransform_Wrench w o1 T) o2 (inverse T) = w).
Proof.
  intros U; unfold Quat.unit in U.
  assert (V : forall v : Vector3,
             Quat.rotate (Quat.conj (rotation (transform T)))
               (Quat.rotate (rotation (transform T)) v) = v).
  { intros v. now rewrite rotate_conj, U, Vector3_scale_1. }
  split; [| split].
  - intros p o1 o2; cbv zeta; split; [| reflexivity].
    pose proof (doTransform_PointStamped_apply_rigid
                  (doTransform_PointStamped p o1 T) o2 (inverse T)) as E.
    rewrite (doTransform_PointStamped_apply_rigid p o1 T) in E.
    assert (F : apply_rigid (inverse T) (apply_rigid T (Vector3_of_Point (point p)))
                = Vector3_of_Point (point p)).
    { pose proof (V (Vector3_of_Point (point p))) as Vp.
      pose proof (V (translation (transform T))) as Vt.
      destruct p as [hp [px py pz]].
      destruct T as [hT c [[tx ty tz] [qx qy qz qw]]].
      unfold apply_rigid, inverse in *; cbn [transform rotation translation point] in *.
      revert Vp Vt; unfold_vec. unfold Quat.mul, Quat.conj; simpl.
      intros Vp Vt. injection Vp as X1 X2 X3. f_equal; nra. }
    rewrite F in E.
    destruct (point (doTransform_PointStamped (doTransform_PointStamped p o1 T) o2 (inverse T)))
      as [bx by_ bz].
    destruct (point p) as [px py pz].
    unfold Vector3_of_Point in E; simpl in E. now injection E as -> -> ->.
  - intros v o1 o2. rewrite !doTransform_Vector3_rotate. apply V.
  - intros w o1 o2. rewrite !doTransform_Wrench_rotate.
    cbn [inverse transform rotation force torque]. rewrite !V. now destruct w.
Qed.

Lemma mul_identity_l (q : Quaternion) : Quat.mul Quat.identity q = q.
Proof.
  destruct q as [x y z w]; unfold Quat.mul, Quat.identity; f_equal; ring.
Qed.

Lemma gmTransformToKDL_neg (h : Header) (c : string) (tr : Vector3) (q : Quaternion) :
  gmTransformToKDL (mkTransformStamped h c (mkTransform tr (Quat.neg q)))
  = gmTransformToKDL (mkTransformStamped h c (mkTransform tr q)).
Proof.
  unfold gmTransformToKDL; cbn [transform rotation translation].
  fold (Rotation_of (Quat.neg q)); fold (Rotation_of q).
  now rewrite neg_same_rotation.
Qed.

(** On a unit quaternion with a scalar part large enough for the first
    branch of [GetQuaternion], the quaternion returned has a positive
    scalar part: it is [q] when [q] has one, and [-q] otherwise. *)
Lemma GetQuaternion_unit_scalar (q : Quaternion) :
  Quat.unit q ->
  1 / 1000000000000 < 4 * (Quaternion_w q * Quaternion_w q) - 1 ->
  (Quaternion_w q < 0 ->
     Quaternion_of (KDL.GetQuaternion (Rotation_of q)) = Quat.neg q)
  /\ (0 < Quaternion_w q ->
        Quaternion_of (KDL.GetQuaternion (Rotation_of q)) = q).
Proof.
  destruct q as [x y z w]; unfold Quat.unit, Quat.norm2, Quat.neg, Rotation_of; simpl.
  intros U B.
  unfold KDL.GetQuaternion, KDL.Quaternion, Quaternion_of;
    cbn [KDL.d0 KDL.d1 KDL.d2 KDL.d3 KDL.d4 KDL.d5 KDL.d6 KDL.d7 KDL.d8]; cbv zeta.
  rewrite lit_0_5, lit_0_25, lit_1_0.
  rewrite (proj2 (Rgtb_true _ _)) by lra.
  rewrite (sqrt_4sq w) by lra.
  split; intros Hw.
  - rewrite Rabs_left by lra. f_equal; field; lra.
  - rewrite Rabs_right by lra. f_equal; field; lra.
Qed.

(** X12. A rotation quaternion and its negative are the same rotation,
    and the code cannot tell them apart: negating the rotation of the
    transform, or the orientation of the source pose, changes no result,
    the returned orientation included. *)
Theorem doTransform_sign_of_quaternion
    (h : Header) (c : string) (tr : Vector3) (q : Quaternion) :
  let Tp := mkTransformStamped h c (mkTransform tr q) in
  let Tn := mkTransformStamped h c (mkTransform tr (Quat.neg q)) in
  (forall v o : Vector3, doTransform_Vector3 v o Tn = doTransform_Vector3 v o Tp)
  /\ (forall w o : Wrench, doTransform_Wrench w o Tn = doTransform_Wrench w o Tp)
  /\ (forall p o : PointStamped,
        doTransform_PointStamped p o Tn = doTransform_PointStamped p o Tp)
  /\ (forall p o : PoseStamped,
        doTransform_PoseStamped p o Tn = doTransform_PoseStamped p o Tp)
  /\ (forall (hp : Header) (pos : Point) (qp : Quaternion) (o : PoseStamped),
        doTransform_PoseStamped (mkPoseStamped hp (mkPose pos (Quat.neg qp))) o Tp
        = doTransform_PoseStamped (mkPoseStamped hp (mkPose pos qp)) o Tp).
Proof.
  cbv zeta.
  pose proof (gmTransformToKDL_neg h c tr q) as G.
  split; [| split; [| split; [| split]]].
  - intros; unfold doTransform_Vector3. now rewrite G.
  - intros; unfold doTransform_Wrench, doTransform_Vector3. now rewrite G.
  - intros; unfold doTransform_PointStamped. now rewrite G.
  - intros; rewrite !doTransform_PoseStamped_eq. rewrite G.
    cbn [transform rotation]. now rewrite neg_same_rotation.
  - intros; rewrite !doTransform_PoseStamped_eq.
    cbn [pose position orientation]. now rewrite neg_same_rotation.
Qed.

(** X13. The transform that moves nothing returns points, vectors,
    wrenches and pose positions as they are.  The orientation of a pose
    comes back as the same rotation, as [q] or as [-q]: when the scalar
    part of a unit [q] is large enough for the first branch of
    [GetQuaternion], the orientation returned has a positive scalar
    part, so that a [q] with a negative one comes back negated. *)
Theorem doTransform_identity_transform (h : Header) (c : string) :
  let I := identity_transform h c in
  (forall p o : PointStamped, point (doTransform_PointStamped p o I) = point p)
  /\ (forall v o : Vector3Stamped, vector (doTransform_Vector3Stamped v o I) = vector v)
  /\ (forall w o : Wrench, doTransform_Wrench w o I = w)
  /\ (forall p o : PoseStamped,
        position (pose (doTransform_PoseStamped p o I)) = position (pose p))
  /\ (forall p o : PoseStamped,
        let q := orientation (pose p) in
        let q' := orientation (pose (doTransform_PoseStamped p o I)) in
        Quat.unit q ->
        Rotation_of q' = Rotation_of q
        /\ (q' = q \/ q' = Quat.neg q)
        /\ (1 / 1000000000000 < 4 * (Quaternion_w q * Quaternion_w q) - 1 ->
              0 < Quaternion_w q'
              /\ (Quaternion_w q < 0 -> q' = Quat.neg q))).
Proof.
  cbv zeta; split; [| split; [| split; [| split]]].
  - intros [hp [x y z]] o.
    unfold doTransform_PointStamped, identity_transform, gmTransformToKDL; unfold_kdl.
    unfold set_point, set_Point_x, set_Point_y, set_Point_z; simpl. f_equal; ring.
  - intros [hv v] o. unfold doTransform_Vector3Stamped; cbn.
    rewrite doTransform_Vector3_rotate. apply rotate_identity.
  - intros [f t] o. rewrite doTransform_Wrench_rotate; cbn.
    now rewrite !rotate_identity.
  - intros [hp [[x y z] q]] o. rewrite doTransform_PoseStamped_position.
    unfold identity_transform, gmTransformToKDL; unfold_kdl. f_equal; ring.
  - intros p o U. rewrite doTransform_PoseStamped_orientation.
    cbn [identity_transform transform rotation].
    rewrite Quaternion_mul_hom, mul_identity_l.
    split; [now apply GetQuaternion_same_rotation |].
    split; [now apply GetQuaternion_unit |].
    intros B. destruct (GetQuaternion_unit_scalar _ U B) as [N P].
    split; [| exact N].
    destruct (Rlt_dec (Quaternion_w (orientation (pose p))) 0) as [L | L].
    + rewrite (N L). unfold Quat.neg; simpl. lra.
    + assert (0 < Quaternion_w (orientation (pose p))) as L' by nra.
      rewrite (P L'). exact L'.
Qed.

(** X14. After a transform application the accessors of the result
    return the frame and the time of the transform: [getFrameId] its
    frame name and [getTimestamp] the conversion of its stamp, whatever
    the source and the previous output carried. *)
Theorem accessors_after_doTransform (T : TransformStamped) :
  (forall a o : Vector3Stamped,
     getFrameId_Vector3Stamped (doTransform_Vector3Stamped a o T)
       = frame_id (TransformStamped_header T)
     /\ getTimestamp_Vector3Stamped (doTransform_Vector3Stamped a o T)
        = tf2_ros_fromMsg (stamp (TransformStamped_header T)))
  /\ (forall a o : PointStamped,
        getFrameId_PointStamped (doTransform_PointStamped a o T)
          = frame_id (TransformStamped_header T)
        /\ getTimestamp_PointStamped (doTransform_PointStamped a o T)
           = tf2_ros_fromMsg (stamp (TransformStamped_header T)))
  /\ (forall a o : PoseStamped,
        getFrameId_PoseStamped (doTransform_PoseStamped a o T)
          = frame_id (TransformStamped_header T)
        /\ getTimestamp_PoseStamped (doTransform_PoseStamped a o T)
           = tf2_ros_fromMsg (stamp (TransformStamped_header T)))
  /\ (forall a o : WrenchStamped,
        getFrameId_WrenchStamped (doTransform_WrenchStamped a o T)
          = frame_id (TransformStamped_header T)
        /\ getTimestamp_WrenchStamped (doTransform_WrenchStamped a o T)
           = tf2_ros_fromMsg (stamp (TransformStamped_header T))).
Proof.
  split; [| split; [| split]]; intros a o.
  - split; reflexivity.
  - split; reflexivity.
  - unfold getFrameId_PoseStamped, getTimestamp_PoseStamped.
    rewrite doTransform_PoseStamped_header. split; reflexivity.
  - split; reflexivity.
Qed.

(** ** Further witnesses on the sample messages *)

Lemma sample_T1_unit : Quat.unit (rotation (transform sample_T1)).
Proof. unfold Quat.unit, Quat.norm2; simpl; lra. Defined.


Lemma sample_pose_neg_unit : Quat.unit (orientation (pose sample_pose_neg)).
Proof. unfold Quat.unit, Quat.norm2; simpl; lra. Defined.

Lemma gmTransformToKDL_rotation_witness :
  Quat.unit (rotation (transform sample_T1))
  /\ KDL.Rotation_mul (KDL.M (gmTransformToKDL sample_T1))
       (Rotation_transpose (KDL.M (gmTransformToKDL sample_T1))) = Rotation_identity
  /\ Rotation_det (KDL.M (gmTransformToKDL sample_T1)) = 1.
Proof.
  split; [exact sample_T1_unit |].
  destruct (gmTransformToKDL_rotation sample_T1) as (_ & _ & _ & _ & H).
  destruct (H sample_T1_unit) as (A & _ & D).
  split; [exact A | exact D].
Defined.

Lemma doTransform_Vector3_dot_witness :
  Quat.unit (rotation (transform sample_T1))
  /\ dot (doTransform_Vector3 (force sample_wrench) (force sample_wrench) sample_T1)
         (doTransform_Vector3 (torque sample_wrench) (force sample_wrench) sample_T1)
     = dot (force sample_wrench) (torque sample_wrench).
Proof.
  split; [exact sample_T1_unit |].
  destruct (doTransform_Vector3_dot (force sample_wrench) (torque sample_wrench)
              (force sample_wrench) (force sample_wrench) sample_T1) as [_ H].
  exact (proj1 (H sample_T1_unit)).
Defined.

Lemma doTransform_PointStamped_distance_witness :
  Quat.unit (rotation (transform sample_T1))
  /\ (let d_in := Vector3_sub (Vector3_of_Point (point sample_point))
                              (Vector3_of_Point (point sample_point')) in
      let d_out :=
        Vector3_sub
          (Vector3_of_Point (point (doTransform_PointStamped sample_point sample_point sample_T1)))
          (Vector3_of_Point (point (doTransform_PointStamped sample_point' sample_point sample_T1))) in
      dot d_out d_out = dot d_in d_in).
Proof.
  split; [exact sample_T1_unit |].
  destruct (doTransform_PointStamped_distance sample_point sample_point'
              sample_point sample_point sample_T1) as (_ & _ & H).
  exact (H sample_T1_unit).
Defined.


Lemma doTransform_inverse_round_trip_witness :
  Quat.unit (rotation (transform sample_T1))
  /\ point (doTransform_PointStamped
              (doTransform_PointStamped sample_point sample_point sample_T1)
              sample_point (inverse sample_T1))
     = point sample_point
  /\ doTransform_Wrench (doTransform_Wrench sample_wrench sample_wrench sample_T1)
       sample_wrench (inverse sample_T1)
     = sample_wrench.
Proof.
  split; [exact sample_T1_unit |].
  destruct (doTransform_inverse_round_trip sample_T1 sample_T1_unit) as (P & _ & W).
  split; [exact (proj1 (P sample_point sample_point sample_point)) | apply W].
Defined.

Lemma doTransform_identity_transform_witness :
  Quat.unit (orientation (pose sample_pose_neg))
  /\ 1 / 1000000000000
     < 4 * (Quaternion_w (orientation (pose sample_pose_neg))
            * Quaternion_w (orientation (pose sample_pose_neg))) - 1
  /\ Quaternion_w (orientation (pose sample_pose_neg)) < 0
  /\ orientation (pose (doTransform_PoseStamped sample_pose_neg sample_pose_neg
                          (identity_transform (mkHeader (mkTime 5 0) "a") "a")))
     = Quat.neg (orientation (pose sample_pose_neg)).
Proof.
  assert (B : 1 / 1000000000000
              < 4 * (Quaternion_w (orientation (pose sample_pose_neg))
                     * Quaternion_w (orientation (pose sample_pose_neg))) - 1)
    by (simpl; lra).
  assert (N : Quaternion_w (orientation (pose sample_pose_neg)) < 0) by (simpl; lra).
  split; [exact sample_pose_neg_unit | split; [exact B | split; [exact N |]]].
  destruct (doTransform_identity_transform (mkHeader (mkTime 5 0) "a") "a")
    as (_ & _ & _ & _ & H).
  destruct (H sample_pose_neg sample_pose_neg sample_pose_neg_unit) as (_ & _ & S).
  exact (proj2 (S B) N).
Defined.
